(* Shallow embedding of parts of proftpd's mod_tls (contrib/mod_tls.c):
   the FTPS command handlers AUTH, CCC and PROT, the session ticket key
   ring, the ticket key callback, the OCSP staleness check, the DH
   parameter callback, the shutdown peek and the data-channel session
   reuse check of tls_accept. *)

From Stdlib Require Import ZArith List String Ascii Bool Lia Permutation Sorted.
Import ListNotations.
Open Scope Z_scope.

(* ------------------------------------------------------------------ *)
(** * Session flags, options and FTP reply codes *)

Definition TLS_SESS_ON_CTRL : Z := 1.
Definition TLS_SESS_ON_DATA : Z := 2.
Definition TLS_SESS_PBSZ_OK : Z := 4.
Definition TLS_SESS_NEED_DATA_PROT : Z := 256.
Definition TLS_SESS_HAVE_CCC : Z := 2048.

Definition TLS_OPT_ALLOW_PER_USER : Z := 64.
Definition TLS_OPT_NO_SESSION_REUSE_REQUIRED : Z := 256.
Definition TLS_OPT_ALLOW_WEAK_DH : Z := 8192.

Definition TLS_DH_MIN_LEN : Z := 2048.

(** [flags & bit] is non-zero. *)
Definition has_flag (flags bit : Z) : bool := negb (Z.land flags bit =? 0).
(** [flags |= bit] *)
Definition set_flag (flags bit : Z) : Z := Z.lor flags bit.
(** [flags &= ~bit] *)
Definition clear_flag (flags bit : Z) : Z := Z.land flags (Z.lnot bit).

Definition R_200 : Z := 200.
Definition R_234 : Z := 234.
Definition R_421 : Z := 421.
Definition R_431 : Z := 431.
Definition R_501 : Z := 501.
Definition R_503 : Z := 503.
Definition R_504 : Z := 504.
Definition R_533 : Z := 533.
Definition R_534 : Z := 534.
Definition R_536 : Z := 536.

(** The result of a command handler ([MODRET]). *)
Inductive modret := PR_DECLINED | PR_ERROR | PR_HANDLED.

Definition modret_eqb (a b : modret) : bool :=
  match a, b with
  | PR_DECLINED, PR_DECLINED | PR_ERROR, PR_ERROR
  | PR_HANDLED, PR_HANDLED => true
  | _, _ => false
  end.

(** The module-global session state the handlers read and write:
    [tls_flags] and [session.rfc2228_mech]. *)
Record sess := mk_sess {
  tls_flags : Z;
  rfc2228_mech : option string
}.

(** What a handler leaves behind: its MODRET, the reply codes it queued
    or sent (in order), the new session state and whether the session
    was disconnected. *)
Record cmd_out := mk_out {
  out_ret : modret;
  out_resp : list Z;
  out_sess : sess;
  out_disconnect : bool
}.

Definition declined (s : sess) : cmd_out := mk_out PR_DECLINED [] s false.
Definition error (code : Z) (s : sess) : cmd_out := mk_out PR_ERROR [code] s false.

(** [!session.rfc2228_mech || strncmp(session.rfc2228_mech, "TLS", 4) != 0] *)
Definition mech_is_tls (s : sess) : bool :=
  match rfc2228_mech s with
  | Some m => String.eqb m "TLS"
  | None => false
  end.

(* ------------------------------------------------------------------ *)
(** * PROT *)

(** Configuration and per-command environment of [tls_prot]:
    [tls_engine], [tls_required_on_data] (1 required, 0 allowed,
    -1 forbidden) and the verdict of [dir_check] for <Limit>. *)
Record prot_env := mk_prot_env {
  pe_engine : bool;
  pe_required_on_data : Z;
  pe_limit_ok : bool
}.

(** [tls_prot]; [args] are [cmd->argv[1..]].  [CHECK_CMD_ARGS(cmd, 2)]
    replies 501 on any other argument count. *)
Definition tls_prot (e : prot_env) (s : sess) (args : list string) : cmd_out :=
  if negb (pe_engine e) || negb (mech_is_tls s) then declined s else
  match args with
  | [prot] =>
    let f := tls_flags s in
    if negb (has_flag f TLS_SESS_ON_CTRL) && negb (has_flag f TLS_SESS_HAVE_CCC)
    then error R_503 s
    else if negb (pe_limit_ok e) then error R_534 s
    else
      let finish f' :=
        mk_out PR_HANDLED [R_200]
          (mk_sess (set_flag f' TLS_SESS_PBSZ_OK) (rfc2228_mech s)) false in
      if String.eqb prot "C" then
        if negb (pe_required_on_data e =? 1)
        then finish (clear_flag f TLS_SESS_NEED_DATA_PROT)
        else error R_534 s
      else if String.eqb prot "P" then
        if negb (pe_required_on_data e =? -1)
        then finish (set_flag f TLS_SESS_NEED_DATA_PROT)
        else error R_534 s
      else if String.eqb prot "S" || String.eqb prot "E" then error R_536 s
      else error R_504 s
  | _ => error R_501 s
  end.

(* ------------------------------------------------------------------ *)
(** * AUTH and CCC *)

(** [toupper(3)] in the C locale. *)
Definition toupper (c : ascii) : ascii :=
  let n := nat_of_ascii c in
  if (97 <=? n)%nat && (n <=? 122)%nat then ascii_of_nat (n - 32) else c.

(** The in-place upper-casing loop over [cmd->argv[1]]. *)
Fixpoint str_toupper (s : string) : string :=
  match s with
  | EmptyString => EmptyString
  | String c s' => String (toupper c) (str_toupper s')
  end.

(** Configuration and environment of [tls_auth]: [tls_engine]; whether
    any of [tls_rsa_cert_file], [tls_dsa_cert_file], [tls_ec_cert_file],
    [tls_pkcs12_file] is set; the "authenticated" parameter; [tls_opts];
    [tls_required_on_ctrl]; and whether [tls_accept(session.c, FALSE)]
    succeeds. *)
Record auth_env := mk_auth_env {
  ae_engine : bool;
  ae_have_cert : bool;
  ae_authenticated : option bool;
  ae_opts : Z;
  ae_required_on_ctrl : Z;
  ae_handshake_ok : bool
}.

(** The tail shared by both accepted AUTH branches: the 234 reply, the
    control handshake, and on its failure the 421 replies and the
    disconnect. *)
Definition auth_handshake (e : auth_env) (s : sess) (set_bits : Z) : cmd_out :=
  if ae_handshake_ok e then
    mk_out PR_HANDLED [R_234]
      (mk_sess (set_flag (tls_flags s) set_bits) (Some "TLS"%string)) false
  else
    (* With [tls_required_on_ctrl == 1] the 421 goes out before a
       disconnect for TLSRequired, otherwise before a disconnect by the
       application: either way the session ends after 234, 421. *)
    mk_out PR_HANDLED [R_234; R_421] s true.

(** [tls_auth]; [args] are [cmd->argv[1..]]. *)
Definition tls_auth (e : auth_env) (s : sess) (args : list string) : cmd_out :=
  if negb (ae_engine e) then declined s else
  let f := tls_flags s in
  if has_flag f TLS_SESS_ON_CTRL then error R_503 s else
  match args with
  | [] => error R_504 s
  | mode0 :: _ =>
    if has_flag f TLS_SESS_HAVE_CCC then error R_534 s
    else if negb (ae_have_cert e) then error R_431 s
    else if match ae_authenticated e with Some true => true | _ => false end &&
            negb (has_flag (ae_opts e) TLS_OPT_ALLOW_PER_USER)
    then error R_534 s
    else
      let mode := str_toupper mode0 in
      if String.eqb mode "TLS" || String.eqb mode "TLS-C" then
        auth_handshake e s TLS_SESS_ON_CTRL
      else if String.eqb mode "SSL" || String.eqb mode "TLS-P" then
        auth_handshake e s (Z.lor TLS_SESS_ON_CTRL TLS_SESS_NEED_DATA_PROT)
      else declined s
  end.

(** Environment of [tls_ccc]: [tls_engine], [tls_required_on_ctrl] and
    the <Limit> verdict of [dir_check]. *)
Record ccc_env := mk_ccc_env {
  ce_engine : bool;
  ce_required_on_ctrl : Z;
  ce_limit_ok : bool
}.

(** [tls_ccc]: on success the 200 reply is sent, the control TLS
    session is shut down and the flags become
    [(flags & ~ON_CTRL) | HAVE_CCC]. *)
Definition tls_ccc (e : ccc_env) (s : sess) : cmd_out :=
  if negb (ce_engine e) || negb (mech_is_tls s) then declined s
  else if negb (has_flag (tls_flags s) TLS_SESS_ON_CTRL) then error R_533 s
  else if ce_required_on_ctrl e =? 1 then error R_534 s
  else if negb (ce_limit_ok e) then error R_534 s
  else
    mk_out PR_HANDLED [R_200]
      (mk_sess (set_flag (clear_flag (tls_flags s) TLS_SESS_ON_CTRL)
                  TLS_SESS_HAVE_CCC)
               (rfc2228_mech s)) false.

(* ------------------------------------------------------------------ *)
(** * The session ticket key ring *)

(** A [struct tls_ticket_key]: its 16-byte name (as a 128-bit number)
    and its creation time; the cipher and HMAC keys play no part here. *)
Record ticket_key := mk_key {
  key_name : Z;
  created : Z
}.

(** The ring: [tls_ticket_keys] ([None] while it is NULL) and
    [tls_ticket_key_curr_count]. *)
Record ring := mk_ring {
  tls_ticket_keys : option (list ticket_key);
  curr_count : Z
}.

(** Modelled from the spec: [xaset_insert_sort] of src/sets.c, which is
    not part of the sources at hand, with [tls_ticket_key_cmp]; the spec
    says the keys are "stored in a time-ordered list, newest first".  The
    new key goes before the first key that is not newer than it. *)
Fixpoint insert_newest_first (k : ticket_key) (l : list ticket_key) : list ticket_key :=
  match l with
  | [] => [k]
  | k' :: l' =>
    if created k' <=? created k then k :: l else k' :: insert_newest_first k l'
  end.

(** Modelled from the spec: the iteration over [xas_list] with
    [xaset_remove] of the members found expired, which the spec describes
    as "evict all keys older than [max_age]". *)
Definition remove_expired_ticket_keys (max_age now : Z) (r : ring) : Z * ring :=
  if curr_count r <? 2 then (0, r) else
  match tls_ticket_keys r with
  | None => (0, r)
  | Some l =>
    let kept := filter (fun k => negb (max_age <? now - created k)) l in
    let n := Z.of_nat (List.length l) - Z.of_nat (List.length kept) in
    (n, mk_ring (Some kept) (curr_count r - n))
  end.

(** [remove_oldest_ticket_key]: drops the last key of the list. *)
Definition remove_oldest_ticket_key (r : ring) : Z * ring :=
  if curr_count r <? 2 then (0, r) else
  match tls_ticket_keys r with
  | None => (0, r)
  | Some l => (0, mk_ring (Some (removelast l)) (curr_count r - 1))
  end.

(** [add_ticket_key]; returns the result code and the new ring.  An
    insertion into a NULL set fails ([xaset_insert_sort] returns -1). *)
Definition add_ticket_key (max_age max_count now : Z) (k : ticket_key) (r : ring)
  : Z * ring :=
  let r1 := snd (remove_expired_ticket_keys max_age now r) in
  let r2 := if curr_count r1 =? max_count then snd (remove_oldest_ticket_key r1)
            else r1 in
  match tls_ticket_keys r2 with
  | None => (-1, r2)
  | Some l => (0, mk_ring (Some (insert_newest_first k l)) (curr_count r2 + 1))
  end.

(** [new_ticket_key_timer_cb]: [create_ticket_key()] either fails
    ([None]) or yields a key created now. *)
Definition new_ticket_key_timer_cb (max_age max_count now : Z)
    (created_key : option Z) (r : ring) : ring :=
  match created_key with
  | None => r
  | Some name => snd (add_ticket_key max_age max_count now (mk_key name now) r)
  end.

Definition UINT_MAX_P1 : Z := 2 ^ 32.

(** The interval of the "New TLS Session Ticket Key" timer computed in
    [tls_init_ctx] ([unsigned int] arithmetic). *)
Definition new_ticket_key_intvl (max_age : Z) : Z :=
  if max_age <? 3600 then (max_age - 1) mod UINT_MAX_P1 else 3600.

(** The first-time ticket setup of [tls_init_ctx] at time [now]: the ring
    it leaves and the timer interval it registers. *)
Definition tls_init_ticket_keys (max_age max_count now : Z) (created_key : option Z)
  : ring * Z :=
  let r0 := mk_ring None 0 in
  let r := match created_key with
           | None => r0
           | Some name =>
             snd (add_ticket_key max_age max_count now (mk_key name now)
                    (mk_ring (Some []) 0))
           end in
  (r, new_ticket_key_intvl max_age).

(** Reachable states (time, ring) after a successful initialisation:
    time advances one second at a time, and the timer callback may fire
    (its key creation succeeding or not). *)
Inductive ring_reachable (max_age max_count : Z) : Z -> ring -> Prop :=
| rr_init : forall t name,
    ring_reachable max_age max_count t
      (fst (tls_init_ticket_keys max_age max_count t (Some name)))
| rr_tick : forall t r,
    ring_reachable max_age max_count t r ->
    ring_reachable max_age max_count (t + 1) r
| rr_timer : forall t r ck,
    ring_reachable max_age max_count t r ->
    ring_reachable max_age max_count t (new_ticket_key_timer_cb max_age max_count t ck r).

(** Keys ordered newest first: [a] is not older than [b]. *)
Definition newer_or_same (a b : ticket_key) : Prop := created b <= created a.

(** Every list the ring holds is ordered newest first. *)
Definition ring_sorted (r : ring) : Prop :=
  forall l, tls_ticket_keys r = Some l -> StronglySorted newer_or_same l.

(* ------------------------------------------------------------------ *)
(** * The ticket key callback and the TLSv1.3 decrypt-ticket callbacks *)

(** [get_ticket_key]: the first key whose name matches
    ([memcmp(key_name, k->key_name, 16) == 0]). *)
Definition get_ticket_key (r : ring) (name : Z) : option ticket_key :=
  match tls_ticket_keys r with
  | None => None
  | Some l => find (fun k => key_name k =? name) l
  end.

(** Mode 0 (decrypt) of [tls_ticket_key_cb].  [tls13] is
    [SSL_version(ssl) == TLS1_3_VERSION]; [hmac_ok] and [cipher_ok] are
    the results of [HMAC_Init_ex] and [EVP_DecryptInit_ex].  The
    comparison with the newest key ([tls_ticket_keys->xas_list]) only
    feeds a trace message. *)
Definition tls_ticket_key_cb_decrypt (r : ring) (name : Z) (tls13 hmac_ok cipher_ok : bool)
  : Z :=
  match get_ticket_key r name with
  | None => 0
  | Some k =>
    if negb hmac_ok then 0
    else if negb cipher_ok then 0
    else if tls13 then 2
    else 1
  end.

(** [SSL_TICKET_STATUS] as OpenSSL hands it to the decrypt-ticket
    callback, and [SSL_TICKET_RETURN]. *)
Inductive ticket_status :=
  SSL_TICKET_EMPTY | SSL_TICKET_NO_DECRYPT | SSL_TICKET_SUCCESS
| SSL_TICKET_SUCCESS_RENEW | SSL_TICKET_FATAL_ERR_OTHER.

Inductive ticket_return :=
  SSL_TICKET_RETURN_ABORT | SSL_TICKET_RETURN_IGNORE
| SSL_TICKET_RETURN_IGNORE_RENEW | SSL_TICKET_RETURN_USE
| SSL_TICKET_RETURN_USE_RENEW.

(** OpenSSL (1.1.1 and later) turns the key callback's result on a
    presented ticket into the status: 0 is "no decrypt", 2 is "success,
    renew", any other positive value is "success". *)
Definition status_of_key_cb (res : Z) : ticket_status :=
  if res =? 0 then SSL_TICKET_NO_DECRYPT
  else if res =? 2 then SSL_TICKET_SUCCESS_RENEW
  else if 0 <? res then SSL_TICKET_SUCCESS
  else SSL_TICKET_FATAL_ERR_OTHER.

(** [tls_decrypt_ctrl_session_ticket_cb] *)
Definition tls_decrypt_ctrl_session_ticket_cb (st : ticket_status) : ticket_return :=
  match st with
  | SSL_TICKET_EMPTY | SSL_TICKET_NO_DECRYPT => SSL_TICKET_RETURN_IGNORE_RENEW
  | SSL_TICKET_SUCCESS => SSL_TICKET_RETURN_USE
  | SSL_TICKET_SUCCESS_RENEW => SSL_TICKET_RETURN_USE_RENEW
  | _ => SSL_TICKET_RETURN_IGNORE
  end.

(** [tls_decrypt_data_session_ticket_cb] *)
Definition tls_decrypt_data_session_ticket_cb (st : ticket_status) : ticket_return :=
  match st with
  | SSL_TICKET_SUCCESS | SSL_TICKET_SUCCESS_RENEW => SSL_TICKET_RETURN_USE
  | _ => SSL_TICKET_RETURN_IGNORE
  end.

(** The commands for which the data SSL_CTX gets the data variant of the
    decrypt-ticket callback (the test on [session.curr_cmd_id] in the
    data-channel setup); every other command restores the control one. *)
Inductive ftp_cmd := APPE | LIST | MLSD | NLST | RETR | STOR | STOU | OTHER_CMD.

Definition is_data_transfer_cmd (c : ftp_cmd) : bool :=
  match c with OTHER_CMD => false | _ => true end.

Definition data_decrypt_ticket_cb (c : ftp_cmd) : ticket_status -> ticket_return :=
  if is_data_transfer_cmd c then tls_decrypt_data_session_ticket_cb
  else tls_decrypt_ctrl_session_ticket_cb.

(* ------------------------------------------------------------------ *)
(** * Staleness of a cached OCSP response *)

Definition OCSP_RESPONSE_STATUS_SUCCESSFUL : Z := 0.

(** [X509_cmp_time(t, &cmp)] on well-formed times: OpenSSL compares with
    [<=], returning -1 when [t] is earlier than or equal to [cmp] and 1
    otherwise (0 is kept for errors). *)
Definition X509_cmp_time (t cmp : Z) : Z := if t <=? cmp then -1 else 1.

(** A C [int] result: two's complement wrap-around to 32 bits. *)
Definition wrap_int (x : Z) : Z :=
  let m := (x + 2 ^ 31) mod 2 ^ 32 in m - 2 ^ 31.

(** [ASN1_TIME_diff(&ndays, &nsecs, from, to)]: the signed difference
    split into days and seconds of the same sign. *)
Definition ASN1_TIME_diff (from to : Z) : Z * Z :=
  (Z.quot (to - from) 86400, Z.rem (to - from) 86400).

(** What the parsing steps of [ocsp_stale_response] yield for a
    successful response: [OCSP_response_get1_basic] (None when NULL) and,
    when the issuer and the cert id are found, [OCSP_resp_find_status]
    with its thisUpdate and optional nextUpdate ([None] when it does not
    return 1). *)
Inductive ocsp_basic :=
| basic_no_issuer
| basic_status (found : option (Z * option Z)).

(** [ocsp_stale_response]: returns the result (0 stale, -1 not stale)
    and the value stored in [*expired]. *)
Definition ocsp_stale_response (ocsp_status : Z) (basic : option ocsp_basic)
    (now age : Z) : Z * Z :=
  let '(stale, expired) :=
    if ocsp_status =? OCSP_RESPONSE_STATUS_SUCCESSFUL then
      match basic with
      | Some basic_no_issuer => (false, 0)
      | Some (basic_status None) => (false, 0)
      | Some (basic_status (Some (this_update, Some next_update))) =>
        if X509_cmp_time next_update now <? 0 then (true, now)
        else
          let '(ndays, nsecs) := ASN1_TIME_diff this_update next_update in
          let validity_secs := wrap_int (ndays * 86400 + nsecs) in
          let refresh_ts := now - Z.quot validity_secs 2 in
          if X509_cmp_time this_update refresh_ts <? 0 then (true, 0)
          else (false, 0)
      | Some (basic_status (Some (_, None))) => (3600 <? age, 0)
      | None => (300 <? age, 0)
      end
    else (300 <? age, 0) in
  (if stale then 0 else -1, expired).

(* ------------------------------------------------------------------ *)
(** * The temporary DH parameter callback *)

(** A DH parameter block: one read from TLSDHParamFile (with an
    identity) or one of the built-in [get_dhNNN()] blocks; [dh_len] is
    [DH_size(dh) * 8]. *)
Inductive dh :=
| dh_configured (id : nat) (bits : Z)
| dh_builtin (bits : Z).

Definition dh_len (d : dh) : Z :=
  match d with dh_configured _ b => b | dh_builtin b => b end.

Inductive pkey_type := EVP_PKEY_RSA | EVP_PKEY_DSA | EVP_PKEY_EC | EVP_PKEY_OTHER.

(** The certificate private key of the connection
    ([SSL_get_privatekey]): its type and [EVP_PKEY_bits]. *)
Record pkey := mk_pkey { pk_type : pkey_type; pk_bits : Z }.

(** The [pkeylen] and [use_pkeylen] computed at the top of [tls_dh_cb]. *)
Definition dh_pkeylen (allow_weak : bool) (pk : option pkey) (keylen : Z) : Z * bool :=
  match pk with
  | Some p =>
    match pk_type p with
    | EVP_PKEY_RSA | EVP_PKEY_DSA =>
      let l := if (pk_bits p <? TLS_DH_MIN_LEN) && negb allow_weak
               then TLS_DH_MIN_LEN else pk_bits p in
      (l, negb (l =? keylen))
    | _ => (0, false)
    end
  | None => (0, false)
  end.

(** One of the two search loops over [tls_tmp_dhs]: [inl d] when a block
    of exactly [target] bits is found (and returned at once), otherwise
    [inr best] with [best] updated to the smallest block larger than
    [target] (the first such on ties). *)
Fixpoint dh_search (target : Z) (l : list dh) (best : option dh) : dh + option dh :=
  match l with
  | [] => inr best
  | d :: l' =>
    if dh_len d =? target then inl d
    else
      let best' :=
        if target <? dh_len d then
          match best with
          | Some b => if dh_len d <? dh_len b then Some d else best
          | None => Some d
          end
        else best in
      dh_search target l' best'
  end.

(** The switch on [keylen] choosing a built-in block. *)
Definition builtin_dh (keylen : Z) : dh :=
  if (keylen =? 512) || (keylen =? 768) || (keylen =? 1024) || (keylen =? 1536)
     || (keylen =? 2048) || (keylen =? 3072) || (keylen =? 4096)
  then dh_builtin keylen
  else dh_builtin 1024.

(** The key length the built-in fallback of [tls_dh_cb] switches on. *)
Definition dh_builtin_keylen (allow_weak : bool) (pk : option pkey) (keylen : Z) : Z :=
  let '(pkeylen, use_pkeylen) := dh_pkeylen allow_weak pk keylen in
  let keylen1 := if (keylen <? TLS_DH_MIN_LEN) && negb allow_weak
                 then TLS_DH_MIN_LEN else keylen in
  if use_pkeylen then pkeylen else keylen1.

(** [tls_dh_cb]: [allow_weak] is [tls_opts & TLS_OPT_ALLOW_WEAK_DH] and
    [dhs] is [tls_tmp_dhs]; returns the block and the new [tls_tmp_dhs]
    (a built-in block is appended to it). *)
Definition tls_dh_cb (allow_weak : bool) (pk : option pkey) (dhs : list dh) (keylen : Z)
  : dh * list dh :=
  let pkeylen := fst (dh_pkeylen allow_weak pk keylen) in
  let fallback :=
    let d := builtin_dh (dh_builtin_keylen allow_weak pk keylen) in
    (d, dhs ++ [d]) in
  match dhs with
  | [] => fallback
  | _ :: _ =>
    match dh_search keylen dhs None with
    | inl d => (d, dhs)
    | inr best =>
      match dh_search pkeylen dhs best with
      | inl d => (d, dhs)
      | inr (Some b) => (b, dhs)
      | inr None => fallback
      end
    end
  end.

(* ------------------------------------------------------------------ *)
(** * Peeking at the next data during a bidirectional shutdown *)

(** Seconds [peek_is_ssl_data] waits in [select(2)] ([tv.tv_sec]) and
    the size of its peek buffer ([sizeof(buf)]). *)
Definition PEEK_WAIT_SECS : Z := 5.
Definition PEEK_BUF_LEN : nat := 3.

(** What the peer does next on the socket: it sends [data] after
    [delay] seconds (a zero-length [data] is an orderly close), it stays
    silent, or the socket reports an error (other than EINTR, which the
    code retries). *)
Inductive peer_next :=
| peer_sends (delay : Z) (data : list Z)
| peer_silent
| peer_sock_error.

Section Peek.

(** [PR_ISPRINT] on a byte. *)
Variable is_print : Z -> bool.

(** [peek_is_ssl_data]: 1 (TRUE, SSL data), 0 (FALSE, FTP data) or -1.
    [recv(fd, buf, 3, MSG_PEEK|MSG_WAITALL)] yields at most the first
    three bytes of what the peer sent. *)
Definition peek_is_ssl_data (p : peer_next) : Z :=
  match p with
  | peer_sock_error => -1
  | peer_silent => 1
  | peer_sends delay data =>
    if PEEK_WAIT_SECS <? delay then 1
    else
      let buf := firstn PEEK_BUF_LEN data in
      if existsb (fun c => negb (is_print c)) buf then 1 else 0
  end.

(** How [tls_end_sess] ends. *)
Inductive end_sess_outcome :=
| ES_SHUTDOWN_DONE      (* no further SSL_shutdown() for close_notify *)
| ES_FREED_UNCLEAN      (* SSL_free() and return, peer not awaited *)
| ES_DISCONNECT         (* SSL_free() and session disconnect *)
| ES_SECOND_SHUTDOWN.   (* SSL_shutdown() again, awaiting close_notify *)

(** The close_notify part of [tls_end_sess]: [sent_shutdown] and
    [received_shutdown] are the bits of [SSL_get_shutdown()],
    [first_res] is the result of the first [SSL_shutdown()], [bidi] is
    [flags & TLS_SHUTDOWN_FL_BIDIRECTIONAL] and [have_conn] is
    [conn != NULL]. *)
Definition tls_end_sess_shutdown (sent_shutdown : bool) (first_res : Z) (bidi : bool)
    (received_shutdown have_conn : bool) (p : peer_next) : end_sess_outcome :=
  let res := if sent_shutdown then 0 else first_res in
  if (res =? 0) && bidi then
    if negb received_shutdown && have_conn then
      let is_ssl_data := peek_is_ssl_data p in
      if is_ssl_data <? 0 then ES_DISCONNECT
      else if is_ssl_data =? 0 then ES_FREED_UNCLEAN
      else ES_SECOND_SHUTDOWN
    else ES_SHUTDOWN_DONE
  else ES_SHUTDOWN_DONE.

End Peek.

(** [isprint(3)] in the C locale, for a concrete [PR_ISPRINT]. *)
Definition c_isprint (c : Z) : bool := (32 <=? c) && (c <=? 126).

(* ------------------------------------------------------------------ *)
(** * Session reuse check on data connections in [tls_accept] *)

(** The compile-time configuration: [TLS1_3_VERSION] defined, and
    [PR_USE_OPENSSL_SSL_SESSION_TICKET_CALLBACK] defined. *)
Record build := mk_build {
  have_tls13 : bool;
  have_ticket_cb : bool
}.

(** memcmp(3) equality of two byte strings of the same length. *)
Fixpoint bytes_eqb (a b : list Z) : bool :=
  match a, b with
  | [], [] => true
  | x :: a', y :: b' => (x =? y) && bytes_eqb a' b'
  | _, _ => false
  end.

(** [tls_compare_session_ids] on the two session ids
    ([SSL_SESSION_get_id]): 0 on a match, -1 otherwise. *)
Definition tls_compare_session_ids (ctrl_id data_id : list Z) : Z :=
  if Nat.eqb (List.length ctrl_id) (List.length data_id) then
    if bytes_eqb ctrl_id data_id then 0 else -1
  else -1.

(** What the data-channel branch of [tls_accept] looks at after a
    successful handshake: [tls_opts], [tls_flags],
    [SSL_session_reused(ssl)], the control and data sessions' ids
    ([None] when [SSL_get_session] returns NULL), the ticket appdata
    of both channels ([tls_ctrl_ticket_appdata],
    [tls_data_ticket_appdata] with their lengths). *)
Record data_hs := mk_data_hs {
  dh_opts : Z;
  dh_flags : Z;
  dh_reused : Z;
  dh_ctrl_sess : option (list Z);
  dh_data_sess : option (list Z);
  dh_ctrl_appdata : list Z;
  dh_data_appdata : list Z
}.

(** The result of [tls_accept]: [accept_fail] is the -1 return after
    [tls_end_sess(ssl, session.d, 0)] and the removal of the data
    streams' notes; otherwise the return value, which is 0 on every
    path that keeps the connection.  The control session is not
    touched. *)
Inductive accept_result :=
| accept_fail
| accept_ok (ret : Z).

(** The ticket appdata comparison done when the session ids differ. *)
Definition ticket_appdata_match (b : build) (h : data_hs) (matching_sess : Z) : Z :=
  if have_tls13 b then
    if matching_sess =? 0 then matching_sess
    else if have_ticket_cb b then
      let cl := List.length (dh_ctrl_appdata h) in
      let dl := List.length (dh_data_appdata h) in
      if (0 <? cl)%nat && (0 <? dl)%nat && Nat.eqb cl dl then
        if bytes_eqb (dh_ctrl_appdata h) (dh_data_appdata h) then 0 else 1
      else matching_sess
    else 0
  else matching_sess.

(** The data-channel branch of [tls_accept] after a successful
    handshake. *)
Definition tls_accept_data (b : build) (h : data_hs) : accept_result :=
  let done_ := accept_ok 0 in
  if negb (has_flag (dh_opts h) TLS_OPT_NO_SESSION_REUSE_REQUIRED) &&
     negb (has_flag (dh_flags h) TLS_SESS_HAVE_CCC) then
    if negb (dh_reused h =? 1) then accept_fail
    else
      match dh_ctrl_sess h with
      | None => accept_fail
      | Some ctrl_id =>
        match dh_data_sess h with
        | None => accept_fail
        | Some data_id =>
          let matching_sess :=
            ticket_appdata_match b h (tls_compare_session_ids ctrl_id data_id) in
          if negb (matching_sess =? 0) then accept_fail else done_
        end
      end
  else done_.

(* ------------------------------------------------------------------ *)
(** * More FTP replies, command ids and the PBSZ and SSCN handlers *)

Definition R_522 : Z := 522.
Definition R_550 : Z := 550.

Definition TLS_OPT_ALLOW_DOT_LOGIN : Z := 8.

(** [tls_pbsz]; [args] are [cmd->argv[1..]] ([CHECK_CMD_ARGS(cmd, 2)]).
    "PBSZ 0" and any other size get the same 200 reply code (with a
    different text). *)
Definition tls_pbsz (engine : bool) (s : sess) (args : list string) : cmd_out :=
  if negb engine || negb (mech_is_tls s) then declined s else
  match args with
  | [_] =>
    if negb (has_flag (tls_flags s) TLS_SESS_ON_CTRL) then error R_503 s
    else mk_out PR_HANDLED [R_200]
           (mk_sess (set_flag (tls_flags s) TLS_SESS_PBSZ_OK) (rfc2228_mech s)) false
  | _ => error R_501 s
  end.

Definition TLS_SSCN_MODE_SERVER : Z := 0.
Definition TLS_SSCN_MODE_CLIENT : Z := 1.

(** Environment of [tls_sscn]: [tls_engine] and the <Limit> verdict of
    [dir_check]; [argv0] is [cmd->argv[0]]. *)
Record sscn_env := mk_sscn_env {
  se_engine : bool;
  se_limit_ok : bool;
  se_argv0 : string
}.

(** [tls_sscn]: the handler's output, the new [tls_sscn_mode] and the
    text of the 200 reply, if any.  [strncmp(argv[1], "ON", 3)] and
    [strncmp(argv[1], "OFF", 4)] are exact, case-sensitive comparisons. *)
Definition tls_sscn (e : sscn_env) (s : sess) (mode : Z) (args : list string)
  : cmd_out * Z * option string :=
  if negb (se_engine e) || negb (mech_is_tls s) then (declined s, mode, None) else
  match args with
  | _ :: _ :: _ => (error R_504 s, mode, None)
  | _ =>
    if negb (se_limit_ok e) then (error R_550 s, mode, None) else
    match args with
    | [] =>
      (mk_out PR_HANDLED [R_200] s false, mode,
       Some (se_argv0 e ++ ":" ++
             (if Z.eqb mode TLS_SSCN_MODE_SERVER then "SERVER" else "CLIENT") ++
             " METHOD")%string)
    | a :: _ =>
      if String.eqb a "ON" then
        (mk_out PR_HANDLED [R_200] s false, TLS_SSCN_MODE_CLIENT,
         Some (se_argv0 e ++ ":CLIENT METHOD")%string)
      else if String.eqb a "OFF" then
        (mk_out PR_HANDLED [R_200] s false, TLS_SSCN_MODE_SERVER,
         Some (se_argv0 e ++ ":SERVER METHOD")%string)
      else (error R_501 s, mode, None)
    end
  end.

(** The command ids [tls_any] and the data-stream callback compare
    [cmd] and [session.curr_cmd_id] with. *)
Inductive cmd_id :=
| PR_CMD_SYST_ID | PR_CMD_AUTH_ID | PR_CMD_FEAT_ID | PR_CMD_HOST_ID
| PR_CMD_CLNT_ID | PR_CMD_QUIT_ID | PR_CMD_USER_ID | PR_CMD_PASS_ID
| PR_CMD_ACCT_ID | PR_CMD_APPE_ID | PR_CMD_LIST_ID | PR_CMD_MLSD_ID
| PR_CMD_NLST_ID | PR_CMD_RETR_ID | PR_CMD_STOR_ID | PR_CMD_STOU_ID
| PR_CMD_OTHER_ID.

(** The commands [tls_any] lets through unconditionally. *)
Definition any_exempt_cmd (c : cmd_id) : bool :=
  match c with
  | PR_CMD_SYST_ID | PR_CMD_AUTH_ID | PR_CMD_FEAT_ID | PR_CMD_HOST_ID
  | PR_CMD_CLNT_ID | PR_CMD_QUIT_ID => true
  | _ => false
  end.

Definition any_login_cmd (c : cmd_id) : bool :=
  match c with
  | PR_CMD_USER_ID | PR_CMD_PASS_ID | PR_CMD_ACCT_ID => true
  | _ => false
  end.

Definition any_xfer_cmd (c : cmd_id) : bool :=
  match c with
  | PR_CMD_APPE_ID | PR_CMD_LIST_ID | PR_CMD_MLSD_ID | PR_CMD_NLST_ID
  | PR_CMD_RETR_ID | PR_CMD_STOR_ID | PR_CMD_STOU_ID => true
  | _ => false
  end.

(** Configuration seen by [tls_any]: [tls_engine], the three
    [tls_required_on_*] values, [tls_opts], the "authenticated"
    parameter, and the [on_data] value of a TLSRequired found by
    [find_config(CURRENT_CONF, ...)] for the current directory. *)
Record any_env := mk_any_env {
  ye_engine : bool;
  ye_required_on_auth : Z;
  ye_required_on_ctrl : Z;
  ye_required_on_data : Z;
  ye_opts : Z;
  ye_authenticated : option bool;
  ye_dir_required : option Z
}.

(** [tls_any], the pre-command hook for every command. *)
Definition tls_any (e : any_env) (s : sess) (c : cmd_id) : cmd_out :=
  if negb (ye_engine e) then declined s else
  if any_exempt_cmd c then declined s else
  let f := tls_flags s in
  if (ye_required_on_auth e =? 1) && negb (has_flag f TLS_SESS_ON_CTRL) &&
     negb (has_flag (ye_opts e) TLS_OPT_ALLOW_PER_USER) && any_login_cmd c
  then error R_550 s else
  if (ye_required_on_ctrl e =? 1) && negb (has_flag f TLS_SESS_ON_CTRL) &&
     (negb (has_flag (ye_opts e) TLS_OPT_ALLOW_PER_USER) ||
      match ye_authenticated e with Some true => true | _ => false end)
  then error R_550 s else
  if ye_required_on_data e =? 1 then
    if negb (has_flag f TLS_SESS_NEED_DATA_PROT) && any_xfer_cmd c
    then error R_522 s else declined s
  else if any_xfer_cmd c then
    match ye_dir_required e with
    | Some r => if (r =? 1) && negb (has_flag f TLS_SESS_NEED_DATA_PROT)
                then error R_522 s else declined s
    | None => declined s
    end
  else declined s.

(* ------------------------------------------------------------------ *)
(** * Opening a data stream: [tls_netio_postopen_cb] *)

Inductive data_handshake := HS_NONE | HS_ACCEPT | HS_CONNECT.

Definition is_listing_cmd (c : cmd_id) : bool :=
  match c with PR_CMD_LIST_ID | PR_CMD_MLSD_ID | PR_CMD_NLST_ID => true | _ => false end.

(** What [tls_netio_postopen_cb] looks at: [tls_required_on_data],
    [tls_sscn_mode], [session.curr_cmd_id], whether [tls_accept] on the
    data connection succeeds, the peer certificates of the control and
    data sessions (an identity, [None] for NULL; [X509_cmp] is non-zero
    on different certificates) and whether [tls_connect] succeeds. *)
Record postopen_env := mk_postopen_env {
  po_required_on_data : Z;
  po_sscn_mode : Z;
  po_cmd : cmd_id;
  po_accept_ok : bool;
  po_ctrl_cert : option Z;
  po_data_cert : option Z;
  po_connect_ok : bool
}.

(** [tls_netio_postopen_cb]: [data_wr] is "a data stream opened for
    writing"; returns the result, the new [tls_flags] and the handshake
    run on the data connection. *)
Definition tls_netio_postopen_cb (e : postopen_env) (data_wr : bool) (flags : Z)
  : Z * Z * data_handshake :=
  if data_wr && ((po_required_on_data e =? 1) || has_flag flags TLS_SESS_NEED_DATA_PROT) then
    if is_listing_cmd (po_cmd e) || (po_sscn_mode e =? TLS_SSCN_MODE_SERVER) then
      if negb (po_accept_ok e) then (-1, flags, HS_ACCEPT)
      else
        match po_ctrl_cert e, po_data_cert e with
        | Some cc, Some dc =>
          if negb (cc =? dc) then (-1, flags, HS_ACCEPT)
          else (0, set_flag flags TLS_SESS_ON_DATA, HS_ACCEPT)
        | _, _ => (0, set_flag flags TLS_SESS_ON_DATA, HS_ACCEPT)
        end
    else if po_sscn_mode e =? TLS_SSCN_MODE_CLIENT then
      if negb (po_connect_ok e) then (-1, flags, HS_CONNECT)
      else (0, set_flag flags TLS_SESS_ON_DATA, HS_CONNECT)
    else (0, set_flag flags TLS_SESS_ON_DATA, HS_NONE)
  else (0, flags, HS_NONE).

(* ------------------------------------------------------------------ *)
(** * Protocol versions: TLSProtocol, [get_disabled_protocols],
      [tls_get_proto_str] and [tls_ctx_set_protocol] *)

Definition TLS_PROTO_SSL_V3 : Z := 1.
Definition TLS_PROTO_TLS_V1 : Z := 2.
Definition TLS_PROTO_TLS_V1_1 : Z := 4.
Definition TLS_PROTO_TLS_V1_2 : Z := 8.
Definition TLS_PROTO_TLS_V1_3 : Z := 16.
Definition TLS_PROTO_ALL : Z := 31.

(** [tolower(3)] in the C locale. *)
Definition tolower (c : ascii) : ascii :=
  let n := nat_of_ascii c in
  if (65 <=? n)%nat && (n <=? 90)%nat then ascii_of_nat (n + 32) else c.

Fixpoint str_tolower (s : string) : string :=
  match s with
  | EmptyString => EmptyString
  | String c s' => String (tolower c) (str_tolower s')
  end.

(** [strcasecmp(a, b) == 0]; also [strncasecmp(a, b, n) == 0] with [n]
    beyond the end of [b], as all the calls below use it. *)
Definition strcasecmp_eq (a b : string) : bool :=
  String.eqb (str_tolower a) (str_tolower b).

(** The chain of [strncasecmp] tests naming one protocol, shared by both
    loops of [set_tlsprotocol]; [tls13] is [TLS1_3_VERSION] defined (the
    OpenSSL version is taken to be 1.0.1 or later).  [None] is a
    configuration error: an unknown or unsupported protocol. *)
Definition tls_proto_of_name (tls13 : bool) (name : string) : option Z :=
  if strcasecmp_eq name "SSLv3" then Some TLS_PROTO_SSL_V3
  else if strcasecmp_eq name "TLSv1" || strcasecmp_eq name "TLSv1.0" then Some TLS_PROTO_TLS_V1
  else if strcasecmp_eq name "TLSv1.1" then Some TLS_PROTO_TLS_V1_1
  else if strcasecmp_eq name "TLSv1.2" then Some TLS_PROTO_TLS_V1_2
  else if strcasecmp_eq name "TLSv1.3" then
    if tls13 then Some TLS_PROTO_TLS_V1_3 else None
  else None.

(** The "all" loop: every argument is [+name] or [-name]. *)
Fixpoint tls_proto_additive (tls13 : bool) (protocols : Z) (args : list string) : option Z :=
  match args with
  | [] => Some protocols
  | arg :: rest =>
    let signed :=
      match arg with
      | String c name =>
        if Ascii.eqb c "+"%char then Some (false, name)
        else if Ascii.eqb c "-"%char then Some (true, name)
        else None
      | EmptyString => None
      end in
    match signed with
    | None => None
    | Some (disable, name) =>
      match tls_proto_of_name tls13 name with
      | None => None
      | Some bit =>
        tls_proto_additive tls13
          (if disable then clear_flag protocols bit else set_flag protocols bit) rest
      end
    end
  end.

(** The bits "SSLv23" adds ([SSL_OP_NO_TLSv1_3] defined with TLSv1.3). *)
Definition tls_proto_sslv23 (tls13 : bool) : Z :=
  Z.lor (Z.lor (Z.lor (Z.lor TLS_PROTO_SSL_V3 TLS_PROTO_TLS_V1) TLS_PROTO_TLS_V1_1)
               TLS_PROTO_TLS_V1_2)
        (if tls13 then TLS_PROTO_TLS_V1_3 else 0).

(** The other loop: a list of protocol names. *)
Fixpoint tls_proto_listed (tls13 : bool) (protocols : Z) (args : list string) : option Z :=
  match args with
  | [] => Some protocols
  | arg :: rest =>
    if strcasecmp_eq arg "SSLv23" then
      tls_proto_listed tls13 (Z.lor protocols (tls_proto_sslv23 tls13)) rest
    else
      match tls_proto_of_name tls13 arg with
      | None => None
      | Some bit => tls_proto_listed tls13 (set_flag protocols bit) rest
      end
  end.

(** [set_tlsprotocol]: [args] are [cmd->argv[1..]], [ctx_ok] the verdict
    of [CHECK_CONF]; the stored [unsigned int], or [None] for
    [CONF_ERROR]. *)
Definition set_tlsprotocol (tls13 ctx_ok : bool) (args : list string) : option Z :=
  match args with
  | [] => None
  | first :: rest =>
    if negb ctx_ok then None
    else if strcasecmp_eq first "all" then tls_proto_additive tls13 TLS_PROTO_ALL rest
    else tls_proto_listed tls13 0 args
  end.

(** OpenSSL's option bits (1.1.0 and later, where [SSL_OP_NO_SSLv2] is
    0). *)
Definition SSL_OP_NO_SSLv2 : Z := 0.
Definition SSL_OP_NO_SSLv3 : Z := 33554432.     (* 0x02000000 *)
Definition SSL_OP_NO_TLSv1 : Z := 67108864.     (* 0x04000000 *)
Definition SSL_OP_NO_TLSv1_2 : Z := 134217728.  (* 0x08000000 *)
Definition SSL_OP_NO_TLSv1_1 : Z := 268435456.  (* 0x10000000 *)
Definition SSL_OP_NO_TLSv1_3 : Z := 536870912.  (* 0x20000000 *)

(** [get_disabled_protocols]; [tls13] is [SSL_OP_NO_TLSv1_3] defined. *)
Definition get_disabled_protocols (tls13 : bool) (supported_protocols : Z) : Z :=
  let d := Z.lor (Z.lor SSL_OP_NO_SSLv2 SSL_OP_NO_SSLv3) SSL_OP_NO_TLSv1 in
  let d := Z.lor d SSL_OP_NO_TLSv1_1 in
  let d := Z.lor d SSL_OP_NO_TLSv1_2 in
  let d := if tls13 then Z.lor d SSL_OP_NO_TLSv1_3 else d in
  let d := if has_flag supported_protocols TLS_PROTO_SSL_V3
           then clear_flag d SSL_OP_NO_SSLv3 else d in
  let d := if has_flag supported_protocols TLS_PROTO_TLS_V1
           then clear_flag d SSL_OP_NO_TLSv1 else d in
  let d := if has_flag supported_protocols TLS_PROTO_TLS_V1_1
           then clear_flag d SSL_OP_NO_TLSv1_1 else d in
  let d := if has_flag supported_protocols TLS_PROTO_TLS_V1_2
           then clear_flag d SSL_OP_NO_TLSv1_2 else d in
  let d := if tls13 && has_flag supported_protocols TLS_PROTO_TLS_V1_3
           then clear_flag d SSL_OP_NO_TLSv1_3 else d in
  d.

(** [tls_ctx_set_protocol] (and [tls_ssl_set_protocol]) on the options
    [opts] of the context: [SSL_CTX_set_options] ORs bits in,
    [SSL_CTX_clear_options] clears them; returns the final options. *)
Definition tls_ctx_set_protocol (tls13 : bool) (tls_protocol opts : Z) : Z :=
  let all_proto := get_disabled_protocols tls13 0 in
  let opts := Z.lor opts all_proto in
  let disabled_proto := get_disabled_protocols tls13 tls_protocol in
  let opts := Z.land opts (Z.lnot (Z.lor all_proto disabled_proto)) in
  Z.lor opts disabled_proto.

(** The protocol bits and names [tls_get_proto_str] tests, in order. *)
Definition proto_names : list (Z * string) :=
  [(TLS_PROTO_SSL_V3, "SSLv3"); (TLS_PROTO_TLS_V1, "TLSv1");
   (TLS_PROTO_TLS_V1_1, "TLSv1.1"); (TLS_PROTO_TLS_V1_2, "TLSv1.2");
   (TLS_PROTO_TLS_V1_3, "TLSv1.3")]%string.

(** One [if (protos & bit)] block of [tls_get_proto_str]:
    [pstrcat(p, proto_str, *proto_str ? ", " : "", name, NULL)] and
    [nproto++]. *)
Definition proto_str_step (protos : Z) (acc : string * Z) (p : Z * string) : string * Z :=
  let '(proto_str, nproto) := acc in
  if has_flag protos (fst p) then
    ((proto_str ++ (if String.eqb proto_str "" then "" else ", ") ++ snd p)%string,
     nproto + 1)
  else acc.

(** [tls_get_proto_str]: the string and [*count]. *)
Definition tls_get_proto_str (protos : Z) : string * Z :=
  fold_left (proto_str_step protos) proto_names (""%string, 0).

(* ------------------------------------------------------------------ *)
(** * TLSSessionTicketKeys and TLSRequired *)

Section ConfParsers.

(** [pr_str_get_duration] (None when it fails) and [atoi(3)]; both
    yield a C [int]. *)
Variable pr_str_get_duration : string -> option Z.
Variable atoi : string -> Z.

(** The loop of [set_tlssessionticketkeys] over [cmd->argv[1..]]; the
    values start at -1. *)
Fixpoint ticketkeys_loop (args : list string) (max_age max_nkeys : Z) : option (Z * Z) :=
  match args with
  | [] => Some (max_age, max_nkeys)
  | arg :: rest =>
    if strcasecmp_eq arg "age" then
      match rest with
      | v :: rest' =>
        match pr_str_get_duration v with
        | None => None
        | Some n => if n <? 60 then None else ticketkeys_loop rest' n max_nkeys
        end
      | [] => None
      end
    else if strcasecmp_eq arg "count" then
      match rest with
      | v :: rest' =>
        let n := atoi v in
        if n <? 0 then None
        else if n <? 2 then None
        else ticketkeys_loop rest' max_age n
      | [] => None
      end
    else None
  end.

(** [set_tlssessionticketkeys]: the two [unsigned int] values stored
    (the [int]s converted modulo 2^32), or [None] for [CONF_ERROR]. *)
Definition set_tlssessionticketkeys (ctx_ok : bool) (args : list string) : option (Z * Z) :=
  let argc := (List.length args + 1)%nat in
  if negb (Nat.eqb argc 3 || Nat.eqb argc 5) then None
  else if negb ctx_ok then None
  else match ticketkeys_loop args (-1) (-1) with
       | None => None
       | Some (max_age, max_nkeys) => Some (max_age mod UINT_MAX_P1, max_nkeys mod UINT_MAX_P1)
       end.

End ConfParsers.

(** [set_tlsrequired]: [get_boolean(cmd, 1)] is [get_boolean] on
    [argv[1]] (1, 0, or -1 when not a Boolean); [CHECK_ARGS(cmd, 1)]
    wants at least one argument.  Returns [(on_ctrl, on_data, on_auth)]
    as stored, or [None] for [CONF_ERROR]. *)
Definition set_tlsrequired (get_boolean : string -> Z) (ctx_ok : bool) (args : list string)
  : option (Z * Z * Z) :=
  match args with
  | [] => None
  | arg :: _ =>
    if negb ctx_ok then None else
    let required := get_boolean arg in
    if required =? -1 then
      if String.eqb arg "control" || String.eqb arg "ctrl" then Some (1, 0, 1)
      else if String.eqb arg "data" then Some (0, 1, 0)
      else if String.eqb arg "!data" then Some (0, -1, 0)
      else if String.eqb arg "both" || String.eqb arg "ctrl+data" then Some (1, 1, 1)
      else if String.eqb arg "ctrl+!data" then Some (1, -1, 1)
      else if String.eqb arg "auth" then Some (0, 0, 1)
      else if String.eqb arg "auth+data" then Some (0, 1, 1)
      else if String.eqb arg "auth+!data" then Some (0, -1, 1)
      else None
    else if required =? 1 then Some (1, 1, 1)
    else Some (0, 0, 0)
  end.

(* ------------------------------------------------------------------ *)
(** * Authentication by certificate: [tls_authenticate], [tls_auth_check] *)

Inductive auth_result := AUTH_DECLINED | AUTH_RFC2228_OK.

(** What both handlers read: [tls_engine], [tls_flags], [tls_opts] and
    the TLSUserName parameter. *)
Record authn_env := mk_authn_env {
  an_engine : bool;
  an_flags : Z;
  an_opts : Z;
  an_username : option string
}.

Section CertAuth.

(** [tls_dotlogin_allow(user)] and [tls_cert_to_user(user, field)]. *)
Variable tls_dotlogin_allow : string -> bool.
Variable tls_cert_to_user : string -> string -> bool.

(** [tls_authenticate]; [argv] is [cmd->argv] (the user name first). *)
Definition tls_authenticate (e : authn_env) (argv : list string) : auth_result :=
  if negb (an_engine e) then AUTH_DECLINED else
  if has_flag (an_flags e) TLS_SESS_ON_CTRL then
    if has_flag (an_opts e) TLS_OPT_ALLOW_DOT_LOGIN &&
       tls_dotlogin_allow (nth 0 argv ""%string)
    then AUTH_RFC2228_OK
    else match an_username e with
         | Some field =>
           if tls_cert_to_user (nth 0 argv ""%string) field then AUTH_RFC2228_OK
           else AUTH_DECLINED
         | None => AUTH_DECLINED
         end
  else AUTH_DECLINED.

(** [tls_auth_check]; [argv] is [cmd->argv]: the hashed password, the
    user name, the cleartext password. *)
Definition tls_auth_check (e : authn_env) (argv : list string) : auth_result :=
  if negb (an_engine e) then AUTH_DECLINED else
  if has_flag (an_flags e) TLS_SESS_ON_CTRL then
    if has_flag (an_opts e) TLS_OPT_ALLOW_DOT_LOGIN &&
       tls_dotlogin_allow (nth 1 argv ""%string)
    then AUTH_RFC2228_OK
    else match an_username e with
         | Some field =>
           if tls_cert_to_user (nth 0 argv ""%string) field then AUTH_RFC2228_OK
           else AUTH_DECLINED
         | None => AUTH_DECLINED
         end
  else AUTH_DECLINED.

End CertAuth.

(* ------------------------------------------------------------------ *)
(** * The ftpdctl "tls" action *)

(** A [PR_CTRLS_STATUS_*] result, or the call of one of the cache
    handlers ([tls_handle_sesscache_info] and the like) on the cache
    named and the remaining arguments. *)
Inductive ctrls_result :=
| PR_CTRLS_STATUS_WRONG_PARAMETERS
| PR_CTRLS_STATUS_ACCESS_DENIED
| PR_CTRLS_STATUS_UNSUPPORTED_OPERATION
| ctrls_run (cache action : string) (args : list string).

Section Ctrls.

(** [pr_ctrls_check_acl(ctrl, tls_acttab, action) == TRUE]. *)
Variable check_acl : string -> bool.

(** [tls_handle_sesscache] *)
Definition tls_handle_sesscache (args : list string) : ctrls_result :=
  match args with
  | [] => PR_CTRLS_STATUS_WRONG_PARAMETERS
  | a :: _ =>
    if String.eqb a "info" then
      if negb (check_acl "info") then PR_CTRLS_STATUS_ACCESS_DENIED
      else ctrls_run "sesscache" "info" args
    else if String.eqb a "clear" then
      if negb (check_acl "clear") then PR_CTRLS_STATUS_ACCESS_DENIED
      else ctrls_run "sesscache" "clear" args
    else if String.eqb a "remove" then
      if negb (check_acl "remove") then PR_CTRLS_STATUS_ACCESS_DENIED
      else ctrls_run "sesscache" "remove" args
    else PR_CTRLS_STATUS_UNSUPPORTED_OPERATION
  end.

(** [tls_handle_ocspcache] *)
Definition tls_handle_ocspcache (args : list string) : ctrls_result :=
  match args with
  | [] => PR_CTRLS_STATUS_WRONG_PARAMETERS
  | a :: _ =>
    if String.eqb a "info" then
      if negb (check_acl "info") then PR_CTRLS_STATUS_ACCESS_DENIED
      else ctrls_run "ocspcache" "info" args
    else if String.eqb a "clear" then
      if negb (check_acl "clear") then PR_CTRLS_STATUS_ACCESS_DENIED
      else ctrls_run "ocspcache" "clear" args
    else if String.eqb a "remove" then
      if negb (check_acl "remove") then PR_CTRLS_STATUS_ACCESS_DENIED
      else ctrls_run "ocspcache" "remove" args
    else PR_CTRLS_STATUS_UNSUPPORTED_OPERATION
  end.

(** [tls_handle_tls] *)
Definition tls_handle_tls (args : list string) : ctrls_result :=
  match args with
  | [] => PR_CTRLS_STATUS_WRONG_PARAMETERS
  | a :: rest =>
    if String.eqb a "sesscache" then
      if negb (check_acl "sesscache") then PR_CTRLS_STATUS_ACCESS_DENIED
      else tls_handle_sesscache rest
    else if String.eqb a "ocspcache" then
      if negb (check_acl "ocspcache") then PR_CTRLS_STATUS_ACCESS_DENIED
      else tls_handle_ocspcache rest
    else PR_CTRLS_STATUS_UNSUPPORTED_OPERATION
  end.

End Ctrls.

(* ------------------------------------------------------------------ *)
(** * New TLSv1.3 tickets before data transfers: [tls_pre_xfer] *)

(** [tls_sess_remaining]: the session's time plus timeout, less now,
    or 0 once that has passed. *)
Definition tls_sess_remaining (sess_created sess_expires now : Z) : Z :=
  if now <=? sess_created + sess_expires then sess_created + sess_expires - now else 0.

(** What [tls_pre_xfer] looks at: [tls_engine], [tls_flags], whether
    [ctrl_ssl] is set, whether the control session's protocol version is
    TLSv1.3, its time and timeout, and the current time. *)
Record pre_xfer_env := mk_pre_xfer_env {
  px_engine : bool;
  px_flags : Z;
  px_have_ctrl_ssl : bool;
  px_tls13_session : bool;
  px_sess_time : Z;
  px_sess_timeout : Z;
  px_now : Z
}.

(** [tls_pre_xfer]: its MODRET and whether it calls
    [SSL_new_session_ticket(ctrl_ssl)] ([ossl3]: OpenSSL 3 or later;
    before that the request is only logged as unsupported). *)
Definition tls_pre_xfer (b : build) (ossl3 : bool) (e : pre_xfer_env) : modret * bool :=
  if have_tls13 b then
    if negb (px_engine e) then (PR_DECLINED, false)
    else if negb (has_flag (px_flags e) TLS_SESS_ON_CTRL) then (PR_DECLINED, false)
    else if negb (px_have_ctrl_ssl e) then (PR_DECLINED, false)
    else if negb (px_tls13_session e) then (PR_DECLINED, false)
    else
      let sess_remaining := tls_sess_remaining (px_sess_time e) (px_sess_timeout e) (px_now e) in
      let request_new_ticket := sess_remaining <=? 10 in
      (PR_DECLINED, request_new_ticket && ossl3)
  else (PR_DECLINED, false).

(* ------------------------------------------------------------------ *)
(** * The ticket key callback, encrypt mode *)

(** The outcome of mode 1: the dereference of a NULL first member
    ([tls_ticket_keys->xas_list] of an empty set), or a return value
    with the key name copied to [key_name] on success. *)
Inductive encrypt_result :=
| enc_null_deref
| enc_ret (ret : Z) (name : option Z).

(** Mode 1 (encrypt) of [tls_ticket_key_cb]: [rand_ok], [enc_ok] and
    [hmac_ok] are the results of [RAND_bytes], [EVP_EncryptInit_ex] and
    [HMAC_Init_ex]. *)
Definition tls_ticket_key_cb_encrypt (r : ring) (rand_ok enc_ok hmac_ok : bool)
  : encrypt_result :=
  match tls_ticket_keys r with
  | None => enc_ret (-1) None
  | Some [] => enc_null_deref
  | Some (k :: _) =>
    if negb rand_ok then enc_ret (-1) None
    else if negb enc_ok then enc_ret (-1) None
    else if negb hmac_ok then enc_ret (-1) None
    else enc_ret 1 (Some (key_name k))
  end.

(* ================================================================== *)
(** * Properties *)

(** ** Flag arithmetic *)

Lemma has_flag_pow2 (f k : Z) : 0 <= k -> has_flag f (2 ^ k) = Z.testbit f k.
Proof.
  intros Hk. unfold has_flag.
  destruct (Z.testbit f k) eqn:E.
  - apply negb_true_iff, Z.eqb_neq. intros H0.
    assert (Z.testbit (Z.land f (2 ^ k)) k = Z.testbit 0 k) as Hb by now rewrite H0.
    rewrite Z.land_spec, E, Z.pow2_bits_true, Z.bits_0 in Hb by lia. discriminate.
  - apply negb_false_iff, Z.eqb_eq. apply Z.bits_inj'. intros i Hi.
    rewrite Z.land_spec, Z.bits_0, Z.pow2_bits_eqb by lia.
    destruct (Z.eqb_spec k i); subst; [rewrite E|]; apply andb_false_r || reflexivity.
Qed.

Lemma testbit_set_flag (f b i : Z) : Z.testbit (set_flag f b) i = Z.testbit f i || Z.testbit b i.
Proof. apply Z.lor_spec. Qed.

Lemma testbit_clear_flag (f b i : Z) :
  0 <= i -> Z.testbit (clear_flag f b) i = Z.testbit f i && negb (Z.testbit b i).
Proof. intros. unfold clear_flag. rewrite Z.land_spec, Z.lnot_spec by lia. reflexivity. Qed.

Lemma has_on_ctrl (f : Z) : has_flag f TLS_SESS_ON_CTRL = Z.testbit f 0.
Proof. apply (has_flag_pow2 f 0). lia. Qed.
Lemma has_pbsz_ok (f : Z) : has_flag f TLS_SESS_PBSZ_OK = Z.testbit f 2.
Proof. apply (has_flag_pow2 f 2). lia. Qed.
Lemma has_need_data_prot (f : Z) : has_flag f TLS_SESS_NEED_DATA_PROT = Z.testbit f 8.
Proof. apply (has_flag_pow2 f 8). lia. Qed.
Lemma has_have_ccc (f : Z) : has_flag f TLS_SESS_HAVE_CCC = Z.testbit f 11.
Proof. apply (has_flag_pow2 f 11). lia. Qed.

Ltac flag_bits :=
  rewrite ?has_on_ctrl, ?has_pbsz_ok, ?has_need_data_prot, ?has_have_ccc;
  repeat first [ rewrite testbit_set_flag | rewrite testbit_clear_flag by lia ];
  cbn [Z.testbit TLS_SESS_ON_CTRL TLS_SESS_PBSZ_OK TLS_SESS_NEED_DATA_PROT
       TLS_SESS_HAVE_CCC Pos.testbit negb];
  rewrite ?orb_true_r, ?orb_false_r, ?andb_true_r, ?andb_false_r.

Lemma set_clear_set_pbsz (f b : Z) :
  set_flag (clear_flag (set_flag f TLS_SESS_PBSZ_OK) b) TLS_SESS_PBSZ_OK =
  set_flag (clear_flag f b) TLS_SESS_PBSZ_OK.
Proof.
  apply Z.bits_inj'. intros i Hi.
  rewrite !testbit_set_flag, !testbit_clear_flag, testbit_set_flag by lia.
  destruct (Z.testbit f i), (Z.testbit b i), (Z.testbit TLS_SESS_PBSZ_OK i); reflexivity.
Qed.

Lemma set_set_set_pbsz (f b : Z) :
  set_flag (set_flag (set_flag f TLS_SESS_PBSZ_OK) b) TLS_SESS_PBSZ_OK =
  set_flag (set_flag f b) TLS_SESS_PBSZ_OK.
Proof.
  apply Z.bits_inj'. intros i Hi. rewrite !testbit_set_flag.
  destruct (Z.testbit f i), (Z.testbit b i), (Z.testbit TLS_SESS_PBSZ_OK i); reflexivity.
Qed.

Lemma has_flag_set_pbsz (f : Z) : has_flag (set_flag f TLS_SESS_PBSZ_OK) TLS_SESS_PBSZ_OK = true.
Proof. flag_bits. reflexivity. Qed.

Lemma has_flag_set_pbsz_other (f : Z) :
  has_flag (set_flag f TLS_SESS_PBSZ_OK) TLS_SESS_ON_CTRL = has_flag f TLS_SESS_ON_CTRL /\
  has_flag (set_flag f TLS_SESS_PBSZ_OK) TLS_SESS_HAVE_CCC = has_flag f TLS_SESS_HAVE_CCC.
Proof. flag_bits. auto. Qed.

(** ** PROT *)

(** C10: a PROT command that succeeds always replies 200 and sets the
    PBSZ_OK flag, whatever the session held before (in particular when
    no PBSZ was sent): the session ends as it would had PBSZ_OK been set
    beforehand, as PBSZ does. *)
Theorem tls_prot_sets_pbsz_ok (e : prot_env) (s : sess) (args : list string) :
  out_ret (tls_prot e s args) = PR_HANDLED ->
  out_resp (tls_prot e s args) = [R_200] /\
  has_flag (tls_flags (out_sess (tls_prot e s args))) TLS_SESS_PBSZ_OK = true /\
  out_sess (tls_prot e s args) =
  out_sess (tls_prot e (mk_sess (set_flag (tls_flags s) TLS_SESS_PBSZ_OK)
                                (rfc2228_mech s)) args).
Proof.
  intros H. unfold tls_prot, mech_is_tls in *. cbn [rfc2228_mech tls_flags] in *.
  destruct (has_flag_set_pbsz_other (tls_flags s)) as [E1 E2].
  rewrite E1, E2.
  destruct (pe_engine e), (rfc2228_mech s) as [m|]; simpl in *; try discriminate.
  destruct (String.eqb m "TLS"); simpl in *; try discriminate.
  destruct args as [|p [|]]; simpl in *; try discriminate.
  destruct (negb (has_flag (tls_flags s) TLS_SESS_ON_CTRL) &&
            negb (has_flag (tls_flags s) TLS_SESS_HAVE_CCC)); simpl in *; try discriminate.
  destruct (pe_limit_ok e); simpl in *; try discriminate.
  destruct (String.eqb p "C").
  - destruct (pe_required_on_data e =? 1); simpl in *; try discriminate.
    rewrite set_clear_set_pbsz. repeat split. apply has_flag_set_pbsz.
  - destruct (String.eqb p "P").
    + destruct (pe_required_on_data e =? -1); simpl in *; try discriminate.
      rewrite set_set_set_pbsz. repeat split. apply has_flag_set_pbsz.
    + destruct (String.eqb p "S" || String.eqb p "E"); simpl in *; discriminate.
Qed.

(** C7 (as amended): on a control connection that is secured or cleared
    by CCC, with one argument, PROT first consults <Limit>: when it
    denies the command the reply is 534 whatever the argument.
    Otherwise "C" gets 200 and clears NEED_DATA_PROT exactly when TLS is
    not required on data connections (534 when it is), "P" gets 200 and
    sets NEED_DATA_PROT exactly when TLS is not forbidden on data
    connections (534 when it is), "S" and "E" get 536 and any other
    argument gets 504. *)
Theorem tls_prot_replies (e : prot_env) (s : sess) (p : string) :
  pe_engine e = true -> mech_is_tls s = true ->
  has_flag (tls_flags s) TLS_SESS_ON_CTRL = true \/
  has_flag (tls_flags s) TLS_SESS_HAVE_CCC = true ->
  (pe_limit_ok e = false -> tls_prot e s [p] = error R_534 s) /\
  (pe_limit_ok e = true ->
   (p = "C"%string ->
    (pe_required_on_data e <> 1 ->
     out_ret (tls_prot e s [p]) = PR_HANDLED /\ out_resp (tls_prot e s [p]) = [R_200] /\
     has_flag (tls_flags (out_sess (tls_prot e s [p]))) TLS_SESS_NEED_DATA_PROT = false) /\
    (pe_required_on_data e = 1 -> tls_prot e s [p] = error R_534 s)) /\
   (p = "P"%string ->
    (pe_required_on_data e <> -1 ->
     out_ret (tls_prot e s [p]) = PR_HANDLED /\ out_resp (tls_prot e s [p]) = [R_200] /\
     has_flag (tls_flags (out_sess (tls_prot e s [p]))) TLS_SESS_NEED_DATA_PROT = true) /\
    (pe_required_on_data e = -1 -> tls_prot e s [p] = error R_534 s)) /\
   (p = "S"%string \/ p = "E"%string -> tls_prot e s [p] = error R_536 s) /\
   (p <> "C"%string -> p <> "P"%string -> p <> "S"%string -> p <> "E"%string ->
    tls_prot e s [p] = error R_504 s)).
Proof.
  intros He Hm Hf. unfold tls_prot. rewrite He, Hm. simpl.
  assert (Hg : negb (has_flag (tls_flags s) TLS_SESS_ON_CTRL) &&
               negb (has_flag (tls_flags s) TLS_SESS_HAVE_CCC) = false).
  { destruct Hf as [H|H]; rewrite H; [reflexivity | apply andb_false_r]. }
  rewrite Hg. split.
  - intros Hl. rewrite Hl. reflexivity.
  - intros Hl. rewrite Hl. cbn -[String.eqb has_flag set_flag clear_flag]. split; [|split; [|split]].
    + intros ->. simpl. split.
      * intros Hr. apply Z.eqb_neq in Hr. rewrite Hr. simpl.
        repeat split. flag_bits. reflexivity.
      * intros Hr. rewrite Hr. reflexivity.
    + intros ->. simpl. split.
      * intros Hr. apply Z.eqb_neq in Hr. rewrite Hr. simpl.
        repeat split. flag_bits. reflexivity.
      * intros Hr. rewrite Hr. reflexivity.
    + intros [-> | ->]; reflexivity.
    + intros HC HP HS HE.
      apply String.eqb_neq in HC, HP, HS, HE. rewrite HC, HP, HS, HE. reflexivity.
Qed.

(** The witness of [tls_prot_replies] on a secured session. *)
Lemma tls_prot_replies_witness :
  let e := mk_prot_env true 0 true in
  let s := mk_sess TLS_SESS_ON_CTRL (Some "TLS"%string) in
  let p := "P"%string in
  pe_engine e = true /\ mech_is_tls s = true /\
  (has_flag (tls_flags s) TLS_SESS_ON_CTRL = true \/
   has_flag (tls_flags s) TLS_SESS_HAVE_CCC = true) /\
  ((pe_limit_ok e = false -> tls_prot e s [p] = error R_534 s) /\
  (pe_limit_ok e = true ->
   (p = "C"%string ->
    (pe_required_on_data e <> 1 ->
     out_ret (tls_prot e s [p]) = PR_HANDLED /\ out_resp (tls_prot e s [p]) = [R_200] /\
     has_flag (tls_flags (out_sess (tls_prot e s [p]))) TLS_SESS_NEED_DATA_PROT = false) /\
    (pe_required_on_data e = 1 -> tls_prot e s [p] = error R_534 s)) /\
   (p = "P"%string ->
    (pe_required_on_data e <> -1 ->
     out_ret (tls_prot e s [p]) = PR_HANDLED /\ out_resp (tls_prot e s [p]) = [R_200] /\
     has_flag (tls_flags (out_sess (tls_prot e s [p]))) TLS_SESS_NEED_DATA_PROT = true) /\
    (pe_required_on_data e = -1 -> tls_prot e s [p] = error R_534 s)) /\
   (p = "S"%string \/ p = "E"%string -> tls_prot e s [p] = error R_536 s) /\
   (p <> "C"%string -> p <> "P"%string -> p <> "S"%string -> p <> "E"%string ->
    tls_prot e s [p] = error R_504 s))).
Proof.
  intros e s p.
  split; [reflexivity|]. split; [reflexivity|]. split; [left; reflexivity|].
  apply tls_prot_replies; [reflexivity | reflexivity | left; reflexivity].
Defined.

(** C7 fails as stated: when <Limit> denies PROT, "PROT S" on a secured
    session is answered 534, not 536. *)
Lemma tls_prot_limit_counterexample :
  let e := mk_prot_env true 0 false in
  let s := mk_sess TLS_SESS_ON_CTRL (Some "TLS"%string) in
  out_resp (tls_prot e s ["S"%string]) = [R_534] /\
  out_resp (tls_prot e s ["S"%string]) <> [R_536].
Proof. split; [reflexivity | discriminate]. Qed.

(** The witness of [tls_prot_sets_pbsz_ok]: "PROT C" on a secured session
    that never saw PBSZ. *)
Lemma tls_prot_sets_pbsz_ok_witness :
  let e := mk_prot_env true 0 true in
  let s := mk_sess TLS_SESS_ON_CTRL (Some "TLS"%string) in
  let args := ["C"%string] in
  has_flag (tls_flags s) TLS_SESS_PBSZ_OK = false /\
  out_ret (tls_prot e s args) = PR_HANDLED /\
  (out_resp (tls_prot e s args) = [R_200] /\
   has_flag (tls_flags (out_sess (tls_prot e s args))) TLS_SESS_PBSZ_OK = true /\
   out_sess (tls_prot e s args) =
   out_sess (tls_prot e (mk_sess (set_flag (tls_flags s) TLS_SESS_PBSZ_OK)
                                 (rfc2228_mech s)) args)).
Proof.
  intros e s args. split; [reflexivity|]. split; [reflexivity|].
  apply tls_prot_sets_pbsz_ok. reflexivity.
Defined.

(** ** AUTH and CCC *)

Lemma has_flags_after_ccc (f : Z) :
  has_flag (set_flag (clear_flag f TLS_SESS_ON_CTRL) TLS_SESS_HAVE_CCC) TLS_SESS_ON_CTRL = false /\
  has_flag (set_flag (clear_flag f TLS_SESS_ON_CTRL) TLS_SESS_HAVE_CCC) TLS_SESS_HAVE_CCC = true.
Proof. flag_bits. auto. Qed.

(** C2 (as amended): with the TLS engine on, AUTH replies 503 when TLS
    is already active on the control channel; 504 when it has no
    argument; 534 after CCC; 431 when no RSA, DSA, EC or PKCS#12
    certificate is configured; 534 when the user is already
    authenticated and AllowPerUser is not set; it sends 234 and runs the
    control handshake for TLS, TLS-C, SSL and TLS-P (in any letter case),
    and declines any other argument, leaving it to other RFC 2228
    modules.  After a successful CCC every AUTH with an argument gets
    534. *)
Theorem tls_auth_replies (e : auth_env) (s : sess) (args : list string) :
  ae_engine e = true ->
  (has_flag (tls_flags s) TLS_SESS_ON_CTRL = true -> tls_auth e s args = error R_503 s) /\
  (has_flag (tls_flags s) TLS_SESS_ON_CTRL = false -> args = [] ->
   tls_auth e s args = error R_504 s) /\
  (forall mode rest, has_flag (tls_flags s) TLS_SESS_ON_CTRL = false ->
   args = mode :: rest ->
   (has_flag (tls_flags s) TLS_SESS_HAVE_CCC = true -> tls_auth e s args = error R_534 s) /\
   (has_flag (tls_flags s) TLS_SESS_HAVE_CCC = false -> ae_have_cert e = false ->
    tls_auth e s args = error R_431 s) /\
   (has_flag (tls_flags s) TLS_SESS_HAVE_CCC = false -> ae_have_cert e = true ->
    ae_authenticated e = Some true -> has_flag (ae_opts e) TLS_OPT_ALLOW_PER_USER = false ->
    tls_auth e s args = error R_534 s) /\
   (has_flag (tls_flags s) TLS_SESS_HAVE_CCC = false -> ae_have_cert e = true ->
    (ae_authenticated e <> Some true \/ has_flag (ae_opts e) TLS_OPT_ALLOW_PER_USER = true) ->
    ((str_toupper mode = "TLS"%string \/ str_toupper mode = "TLS-C"%string) ->
     tls_auth e s args = auth_handshake e s TLS_SESS_ON_CTRL) /\
    ((str_toupper mode = "SSL"%string \/ str_toupper mode = "TLS-P"%string) ->
     tls_auth e s args =
     auth_handshake e s (Z.lor TLS_SESS_ON_CTRL TLS_SESS_NEED_DATA_PROT)) /\
    (~ In (str_toupper mode) ["TLS"; "TLS-C"; "SSL"; "TLS-P"]%string ->
     tls_auth e s args = declined s))) /\
  (forall bits, hd 0 (out_resp (auth_handshake e s bits)) = R_234) /\
  (forall (ce : ccc_env) mode rest,
   out_ret (tls_ccc ce s) = PR_HANDLED ->
   tls_auth e (out_sess (tls_ccc ce s)) (mode :: rest) = error R_534 (out_sess (tls_ccc ce s))).
Proof.
  intros He. unfold tls_auth. rewrite He. simpl.
  split; [intros H; rewrite H; reflexivity|].
  split; [intros H ->; rewrite H; reflexivity|].
  split; [|split].
  - intros mode rest Hon ->. rewrite Hon.
    split; [intros H; rewrite H; reflexivity|].
    split; [intros Hc Hk; rewrite Hc, Hk; reflexivity|].
    split; [intros Hc Hk Ha Hp; rewrite Hc, Hk, Ha, Hp; reflexivity|].
    intros Hc Hk Hap. rewrite Hc, Hk. simpl.
    assert (Hg : match ae_authenticated e with Some true => true | _ => false end &&
                 negb (has_flag (ae_opts e) TLS_OPT_ALLOW_PER_USER) = false).
    { destruct Hap as [Ha | Hp].
      - destruct (ae_authenticated e) as [[|]|]; try reflexivity. congruence.
      - rewrite Hp. apply andb_false_r. }
    rewrite Hg.
    split; [|split].
    + intros [-> | ->]; reflexivity.
    + intros [-> | ->]; reflexivity.
    + intros Hn. simpl in Hn.
      destruct (String.eqb_spec (str_toupper mode) "TLS"); [exfalso; apply Hn; simpl; auto|].
      destruct (String.eqb_spec (str_toupper mode) "TLS-C"); [exfalso; apply Hn; simpl; auto|].
      destruct (String.eqb_spec (str_toupper mode) "SSL"); [exfalso; apply Hn; simpl; auto|].
      destruct (String.eqb_spec (str_toupper mode) "TLS-P"); [exfalso; apply Hn; simpl; auto|].
      reflexivity.
  - intros bits. unfold auth_handshake. destruct (ae_handshake_ok e); reflexivity.
  - intros ce mode rest H. unfold tls_ccc in *.
    destruct (negb (ce_engine ce) || negb (mech_is_tls s)); [discriminate|].
    destruct (negb (has_flag (tls_flags s) TLS_SESS_ON_CTRL)); [discriminate|].
    destruct (ce_required_on_ctrl ce =? 1); [discriminate|].
    destruct (negb (ce_limit_ok ce)); [discriminate|].
    simpl. destruct (has_flags_after_ccc (tls_flags s)) as [H1 H2].
    rewrite H1, H2. reflexivity.
Qed.

(** The witness of [tls_auth_replies]: "AUTH tls" on a fresh session
    with a certificate configured. *)
Lemma tls_auth_replies_witness :
  let e := mk_auth_env true true None 0 0 true in
  let s := mk_sess 0 None in
  let args := ["tls"%string] in
  ae_engine e = true /\ ((has_flag (tls_flags s) TLS_SESS_ON_CTRL = true -> tls_auth e s args = error R_503 s) /\
  (has_flag (tls_flags s) TLS_SESS_ON_CTRL = false -> args = [] ->
   tls_auth e s args = error R_504 s) /\
  (forall mode rest, has_flag (tls_flags s) TLS_SESS_ON_CTRL = false ->
   args = mode :: rest ->
   (has_flag (tls_flags s) TLS_SESS_HAVE_CCC = true -> tls_auth e s args = error R_534 s) /\
   (has_flag (tls_flags s) TLS_SESS_HAVE_CCC = false -> ae_have_cert e = false ->
    tls_auth e s args = error R_431 s) /\
   (has_flag (tls_flags s) TLS_SESS_HAVE_CCC = false -> ae_have_cert e = true ->
    ae_authenticated e = Some true -> has_flag (ae_opts e) TLS_OPT_ALLOW_PER_USER = false ->
    tls_auth e s args = error R_534 s) /\
   (has_flag (tls_flags s) TLS_SESS_HAVE_CCC = false -> ae_have_cert e = true ->
    (ae_authenticated e <> Some true \/ has_flag (ae_opts e) TLS_OPT_ALLOW_PER_USER = true) ->
    ((str_toupper mode = "TLS"%string \/ str_toupper mode = "TLS-C"%string) ->
     tls_auth e s args = auth_handshake e s TLS_SESS_ON_CTRL) /\
    ((str_toupper mode = "SSL"%string \/ str_toupper mode = "TLS-P"%string) ->
     tls_auth e s args =
     auth_handshake e s (Z.lor TLS_SESS_ON_CTRL TLS_SESS_NEED_DATA_PROT)) /\
    (~ In (str_toupper mode) ["TLS"; "TLS-C"; "SSL"; "TLS-P"]%string ->
     tls_auth e s args = declined s))) /\
  (forall bits, hd 0 (out_resp (auth_handshake e s bits)) = R_234) /\
  (forall (ce : ccc_env) mode rest,
   out_ret (tls_ccc ce s) = PR_HANDLED ->
   tls_auth e (out_sess (tls_ccc ce s)) (mode :: rest) = error R_534 (out_sess (tls_ccc ce s)))).
Proof.
  intros e s args. split; [reflexivity|]. apply tls_auth_replies. reflexivity.
Defined.

(** C2 fails as stated: "AUTH FOO" on a fresh session with a certificate
    is declined by mod_tls (no reply of its own), not answered 504; and
    after a successful CCC, AUTH without an argument gets 504, not
    534. *)
Lemma tls_auth_counterexample :
  let e := mk_auth_env true true None 0 0 true in
  let s := mk_sess 0 None in
  let s_ccc := out_sess (tls_ccc (mk_ccc_env true 0 true)
                                 (mk_sess TLS_SESS_ON_CTRL (Some "TLS"%string))) in
  tls_auth e s ["FOO"%string] = declined s /\
  out_resp (tls_auth e s ["FOO"%string]) <> [R_504] /\
  out_ret (tls_ccc (mk_ccc_env true 0 true)
                   (mk_sess TLS_SESS_ON_CTRL (Some "TLS"%string))) = PR_HANDLED /\
  out_resp (tls_auth e s_ccc []) = [R_504].
Proof. repeat split; try reflexivity. discriminate. Qed.

(** ** The ticket key ring *)

Lemma in_insert_newest_first (k x : ticket_key) (l : list ticket_key) :
  In x (insert_newest_first k l) <-> k = x \/ In x l.
Proof.
  induction l as [|k' l IH]; simpl.
  - tauto.
  - destruct (created k' <=? created k); simpl; [tauto|]. rewrite IH. tauto.
Qed.

Lemma length_insert_newest_first (k : ticket_key) (l : list ticket_key) :
  List.length (insert_newest_first k l) = S (List.length l).
Proof.
  induction l as [|k' l IH]; simpl; [reflexivity|].
  destruct (created k' <=? created k); simpl; congruence.
Qed.

Lemma in_removelast {A} (x : A) (l : list A) : In x (removelast l) -> In x l.
Proof.
  induction l as [|a l IH]; simpl; [tauto|].
  destruct l as [|b l]; simpl in *; [tauto|].
  intros [H|H]; [left; exact H | right; apply IH; exact H].
Qed.

Lemma length_removelast {A} (l : list A) :
  l <> [] -> List.length (removelast l) = pred (List.length l).
Proof.
  induction l as [|a l IH]; [congruence|]. intros _.
  destruct l as [|b l]; [reflexivity|].
  change (S (List.length (removelast (b :: l))) = List.length (b :: l)).
  rewrite IH by discriminate. reflexivity.
Qed.

Lemma length_filter_le {A} (f : A -> bool) (l : list A) :
  (List.length (filter f l) <= List.length l)%nat.
Proof.
  induction l as [|a l IH]; simpl; [lia|]. destruct (f a); simpl; lia.
Qed.

(** What [remove_expired_ticket_keys] leaves in a well-formed ring. *)
Lemma remove_expired_spec (max_age now : Z) (r : ring) (l : list ticket_key) :
  tls_ticket_keys r = Some l -> curr_count r = Z.of_nat (List.length l) ->
  exists l1,
    tls_ticket_keys (snd (remove_expired_ticket_keys max_age now r)) = Some l1 /\
    curr_count (snd (remove_expired_ticket_keys max_age now r)) = Z.of_nat (List.length l1) /\
    (List.length l1 <= List.length l)%nat /\
    (2 <= curr_count r -> forall k, In k l1 -> now - created k <= max_age).
Proof.
  intros Hk Hc. unfold remove_expired_ticket_keys.
  destruct (Z.ltb_spec (curr_count r) 2).
  - exists l. repeat split; auto. lia.
  - rewrite Hk. simpl.
    exists (filter (fun k => negb (max_age <? now - created k)) l).
    pose proof (length_filter_le (fun k => negb (max_age <? now - created k)) l).
    repeat split; auto; [lia|].
    intros _ k Hin. apply filter_In in Hin. destruct Hin as [_ Hin].
    apply negb_true_iff, Z.ltb_ge in Hin. exact Hin.
Qed.

(** [add_ticket_key] on a well-formed ring holding at most [max_count]
    keys (with [max_count >= 2]). *)
Lemma add_ticket_key_spec (max_age max_count now : Z) (k : ticket_key) (r : ring)
    (l : list ticket_key) :
  2 <= max_count ->
  tls_ticket_keys r = Some l -> curr_count r = Z.of_nat (List.length l) ->
  curr_count r <= max_count ->
  exists l',
    fst (add_ticket_key max_age max_count now k r) = 0 /\
    tls_ticket_keys (snd (add_ticket_key max_age max_count now k r)) = Some l' /\
    curr_count (snd (add_ticket_key max_age max_count now k r)) = Z.of_nat (List.length l') /\
    1 <= curr_count (snd (add_ticket_key max_age max_count now k r)) <= max_count /\
    (forall x, In x l' ->
       x = k \/ (In x l /\ (2 <= curr_count r -> now - created x <= max_age))).
Proof.
  intros HM Hk Hc Hle.
  destruct (remove_expired_spec max_age now r l Hk Hc) as (l1 & Hk1 & Hc1 & Hl1 & Hage).
  assert (Hsub1 : forall x, In x l1 -> In x l).
  { unfold remove_expired_ticket_keys in Hk1.
    destruct (curr_count r <? 2); simpl in Hk1; rewrite Hk in Hk1;
      [injection Hk1 as <-; auto|].
    simpl in Hk1. injection Hk1 as <-.
    intros x Hx. apply filter_In in Hx. tauto. }
  unfold add_ticket_key.
  set (r1 := snd (remove_expired_ticket_keys max_age now r)) in *.
  destruct (Z.eqb_spec (curr_count r1) max_count) as [Heq|Hne].
  - unfold remove_oldest_ticket_key.
    destruct (Z.ltb_spec (curr_count r1) 2); [lia|].
    rewrite Hk1. simpl.
    assert (Hne1 : l1 <> []) by (intros ->; simpl in Hc1; lia).
    exists (insert_newest_first k (removelast l1)).
    rewrite length_insert_newest_first, length_removelast by exact Hne1.
    repeat split; try reflexivity; try lia.
    intros x Hx. apply in_insert_newest_first in Hx. destruct Hx as [<-|Hx]; [left; reflexivity|].
    right. apply in_removelast in Hx. split; [apply Hsub1; exact Hx|].
    intros H2. apply Hage; assumption.
  - rewrite Hk1. simpl.
    exists (insert_newest_first k l1).
    rewrite length_insert_newest_first.
    assert (curr_count r1 <= curr_count r) by (rewrite Hc1, Hc; lia).
    repeat split; try reflexivity; try lia.
    intros x Hx. apply in_insert_newest_first in Hx. destruct Hx as [<-|Hx]; [left; reflexivity|].
    right. split; [apply Hsub1; exact Hx|]. intros H2. apply Hage; assumption.
Qed.

(** Reachable rings are well formed and hold between 1 and [max_count]
    keys. *)
Lemma ring_reachable_wf (max_age max_count t : Z) (r : ring) :
  2 <= max_count -> ring_reachable max_age max_count t r ->
  exists l, tls_ticket_keys r = Some l /\ curr_count r = Z.of_nat (List.length l) /\
            1 <= curr_count r <= max_count.
Proof.
  intros HM Hr. induction Hr as [t name | t r Hr IH | t r ck Hr IH].
  - unfold tls_init_ticket_keys. simpl.
    destruct (add_ticket_key_spec max_age max_count t (mk_key name t)
                (mk_ring (Some []) 0) [] HM eq_refl eq_refl ltac:(simpl; lia))
      as (l' & _ & Hk & Hc & Hb & _).
    exists l'. auto.
  - exact IH.
  - destruct IH as (l & Hk & Hc & Hb).
    destruct ck as [name|]; simpl; [|exists l; auto].
    destruct (add_ticket_key_spec max_age max_count t (mk_key name t) r l HM Hk Hc
                ltac:(lia)) as (l' & _ & Hk' & Hc' & Hb' & _).
    exists l'. auto.
Qed.

(** C3 (as amended): after a successful initialisation, with
    [max_count >= 2] (TLSSessionTicketKeys accepts no smaller count),
    every reachable ring holds at least one and at most [max_count]
    keys; keys older than [max_age] are evicted only when a key is
    admitted, and only when the ring then holds two keys or more: right
    after such an admission every key in the ring is at most [max_age]
    seconds old. *)
Theorem ticket_ring_bounds_and_eviction (max_age max_count : Z) :
  2 <= max_count -> 0 <= max_age ->
  (forall t r, ring_reachable max_age max_count t r ->
   exists l, tls_ticket_keys r = Some l /\ curr_count r = Z.of_nat (List.length l) /\
             1 <= curr_count r <= max_count) /\
  (forall t r name, ring_reachable max_age max_count t r -> 2 <= curr_count r ->
   exists l', tls_ticket_keys (new_ticket_key_timer_cb max_age max_count t (Some name) r) = Some l' /\
   forall k, In k l' -> t - created k <= max_age).
Proof.
  intros HM HA. split.
  - intros t r Hr. apply (ring_reachable_wf max_age max_count t r HM Hr).
  - intros t r name Hr H2.
    destruct (ring_reachable_wf max_age max_count t r HM Hr) as (l & Hk & Hc & Hb).
    destruct (add_ticket_key_spec max_age max_count t (mk_key name t) r l HM Hk Hc
                ltac:(lia)) as (l' & _ & Hk' & _ & _ & Hin).
    exists l'. split; [exact Hk'|].
    intros k Hk1. destruct (Hin k Hk1) as [-> | [_ Hage]].
    + simpl. lia.
    + apply Hage. exact H2.
Qed.

(** The witness of [ticket_ring_bounds_and_eviction] with the default
    configuration (43200 seconds, 25 keys). *)
Lemma ticket_ring_bounds_and_eviction_witness :
  2 <= 25 /\ 0 <= 43200 /\
  ((forall t r, ring_reachable 43200 25 t r ->
    exists l, tls_ticket_keys r = Some l /\ curr_count r = Z.of_nat (List.length l) /\
              1 <= curr_count r <= 25) /\
   (forall t r name, ring_reachable 43200 25 t r -> 2 <= curr_count r ->
    exists l', tls_ticket_keys (new_ticket_key_timer_cb 43200 25 t (Some name) r) = Some l' /\
    forall k, In k l' -> t - created k <= 43200)).
Proof.
  split; [lia|]. split; [lia|].
  apply ticket_ring_bounds_and_eviction; lia.
Defined.

Lemma ring_reachable_ticks (max_age max_count t : Z) (r : ring) (n : nat) :
  ring_reachable max_age max_count t r ->
  ring_reachable max_age max_count (t + Z.of_nat n) r.
Proof.
  intros H. induction n as [|n IH].
  - rewrite Z.add_0_r. exact H.
  - replace (t + Z.of_nat (S n)) with (t + Z.of_nat n + 1) by lia.
    apply rr_tick. exact IH.
Qed.

(** C3 fails as stated: with [max_age] 60 the key created at start-up
    is still in the ring at second 61, after the timer admitted a
    second key at second 59 (the interval [max_age - 1]), since eviction
    only runs at admissions. *)
Lemma ticket_ring_age_counterexample :
  ~ (forall t r, ring_reachable 60 25 t r ->
     forall l k, tls_ticket_keys r = Some l -> In k l -> t - created k <= 60).
Proof.
  intros H.
  pose proof (rr_init 60 25 0 7) as H0.
  pose proof (ring_reachable_ticks 60 25 0 _ 59 H0) as H59. simpl in H59.
  pose proof (rr_timer 60 25 59 _ (Some 8) H59) as H59'.
  pose proof (ring_reachable_ticks 60 25 59 _ 2 H59') as H61. simpl in H61.
  specialize (H 61 _ H61 [mk_key 8 59; mk_key 7 0] (mk_key 7 0) eq_refl).
  assert (Hlt : 61 - created (mk_key 7 0) <= 60) by (apply H; simpl; auto).
  simpl in Hlt. lia.
Qed.

Lemma add_ticket_key_in (max_age max_count now : Z) (k : ticket_key) (r : ring)
    (l' : list ticket_key) :
  tls_ticket_keys (snd (add_ticket_key max_age max_count now k r)) = Some l' -> In k l'.
Proof.
  unfold add_ticket_key. cbv zeta.
  match goal with |- context [match tls_ticket_keys ?x with _ => _ end] =>
    destruct (tls_ticket_keys x) as [l2|] eqn:E end; simpl.
  - intros H. injection H as <-. apply in_insert_newest_first. left. reflexivity.
  - rewrite E. discriminate.
Qed.

(** C9: the first-time setup leaves exactly the new key in the ring
    when its creation succeeds, and each firing of the timer with a
    created key admits it; the timer interval is [min(3600, max_age - 1)]
    for every accepted [max_age] except 3600, where the test
    [max_age < 3600] keeps 3600 instead of 3599. *)
Theorem ticket_key_timer_interval :
  (forall max_age max_count now name, 2 <= max_count ->
   fst (tls_init_ticket_keys max_age max_count now (Some name)) =
   mk_ring (Some [mk_key name now]) 1) /\
  (forall max_age max_count now name r l, 2 <= max_count ->
   tls_ticket_keys r = Some l -> curr_count r = Z.of_nat (List.length l) ->
   curr_count r <= max_count ->
   exists l', tls_ticket_keys (new_ticket_key_timer_cb max_age max_count now (Some name) r)
              = Some l' /\ In (mk_key name now) l') /\
  (forall max_age, 60 <= max_age < 2 ^ 32 -> max_age <> 3600 ->
   new_ticket_key_intvl max_age = Z.min 3600 (max_age - 1)) /\
  new_ticket_key_intvl 3600 = 3600 /\ Z.min 3600 (3600 - 1) = 3599.
Proof.
  split; [|split; [|split]].
  - intros max_age max_count now name HM. unfold tls_init_ticket_keys, add_ticket_key. simpl.
    destruct max_count; reflexivity.
  - intros max_age max_count now name r l HM Hk Hc Hle. simpl.
    destruct (add_ticket_key_spec max_age max_count now (mk_key name now) r l HM Hk Hc Hle)
      as (l' & _ & Hk' & _ & _ & _).
    exists l'. split; [exact Hk'|]. exact (add_ticket_key_in _ _ _ _ _ _ Hk').
  - intros max_age Hb Hn. unfold new_ticket_key_intvl.
    destruct (Z.ltb_spec max_age 3600).
    + rewrite Z.mod_small by (unfold UINT_MAX_P1; lia). lia.
    + lia.
  - split; reflexivity.
Qed.

(** ** Ticket key callback, decrypt mode *)

(** C4 (as amended): in decrypt mode the ticket key callback returns 0
    when no key of the ring carries the ticket's name (or the HMAC or
    cipher setup fails), and 2 when one does in a TLSv1.3 session,
    whether the session is a control or a data one and whatever the
    key's age.  The TLSv1.3 decrypt-ticket callback makes the
    distinction: for the data-transfer commands (APPE, LIST, MLSD, NLST,
    RETR, STOR, STOU) both success statuses become USE, never a renewal,
    while the control variant turns "success, renew" into USE_RENEW. *)
Theorem ticket_key_decrypt_codes (r : ring) (name : Z) (tls13 hmac_ok cipher_ok : bool) :
  ((forall l, tls_ticket_keys r = Some l -> ~ In name (map key_name l)) ->
   tls_ticket_key_cb_decrypt r name tls13 hmac_ok cipher_ok = 0) /\
  (hmac_ok = false \/ cipher_ok = false ->
   tls_ticket_key_cb_decrypt r name tls13 hmac_ok cipher_ok = 0) /\
  (forall l, tls_ticket_keys r = Some l -> In name (map key_name l) ->
   hmac_ok = true -> cipher_ok = true -> tls13 = true ->
   tls_ticket_key_cb_decrypt r name tls13 hmac_ok cipher_ok = 2) /\
  (forall c res, is_data_transfer_cmd c = true -> 0 < res ->
   data_decrypt_ticket_cb c (status_of_key_cb res) = SSL_TICKET_RETURN_USE) /\
  (forall c st, is_data_transfer_cmd c = true ->
   data_decrypt_ticket_cb c st <> SSL_TICKET_RETURN_USE_RENEW /\
   data_decrypt_ticket_cb c st <> SSL_TICKET_RETURN_IGNORE_RENEW) /\
  data_decrypt_ticket_cb OTHER_CMD (status_of_key_cb 2) = SSL_TICKET_RETURN_USE_RENEW.
Proof.
  unfold tls_ticket_key_cb_decrypt, get_ticket_key.
  split; [|split; [|split; [|split; [|split]]]].
  - intros Hn. destruct (tls_ticket_keys r) as [l|]; [|reflexivity].
    destruct (find (fun k => key_name k =? name) l) as [k|] eqn:E; [|reflexivity].
    exfalso. apply (Hn l eq_refl).
    apply find_some in E. destruct E as [Hin Heq]. apply Z.eqb_eq in Heq.
    rewrite <- Heq. apply in_map. exact Hin.
  - intros Hs. destruct (tls_ticket_keys r) as [l|]; [|reflexivity].
    destruct (find (fun k => key_name k =? name) l) as [k|]; [|reflexivity].
    destruct Hs as [-> | ->]; [reflexivity|]. destruct hmac_ok; reflexivity.
  - intros l Hk Hin -> -> ->. rewrite Hk.
    destruct (find (fun k => key_name k =? name) l) as [k|] eqn:E; [reflexivity|].
    exfalso. apply in_map_iff in Hin. destruct Hin as [k [Hkn Hin]].
    pose proof (find_none _ _ E k Hin) as Hf. simpl in Hf.
    rewrite Hkn, Z.eqb_refl in Hf. discriminate.
  - intros c res Hc Hres. unfold data_decrypt_ticket_cb. rewrite Hc.
    unfold status_of_key_cb.
    destruct (Z.eqb_spec res 0); [lia|].
    destruct (Z.eqb_spec res 2); [reflexivity|].
    destruct (Z.ltb_spec 0 res); [reflexivity|lia].
  - intros c st Hc. unfold data_decrypt_ticket_cb. rewrite Hc.
    destruct st; simpl; split; discriminate.
  - reflexivity.
Qed.

(** C4 fails as stated: the callback has no notion of the channel, and
    for a TLSv1.3 session a ticket whose key is in the ring (here the
    newest and only key) gets 2, in data sessions as well, not 1. *)
Lemma ticket_key_decrypt_counterexample :
  let r := mk_ring (Some [mk_key 5 0]) 1 in
  tls_ticket_key_cb_decrypt r 5 true true true = 2 /\
  tls_ticket_key_cb_decrypt r 5 true true true <> 1.
Proof. split; [reflexivity | discriminate]. Qed.

(** ** OCSP staleness *)

(** C5: for a successful response with both thisUpdate and nextUpdate
    (and a validity period that fits in an [int]), the code flags the
    response expired from [now = nextUpdate] on and stale from
    [now = thisUpdate + (nextUpdate - thisUpdate) / 2] on, both
    boundaries included: at thisUpdate 0, nextUpdate 100, [now] 50 the
    response is already stale, and at [now] 100 already expired. *)
Theorem ocsp_stale_boundaries (this_update next_update now age : Z) :
  0 <= next_update - this_update < 2 ^ 31 ->
  ocsp_stale_response OCSP_RESPONSE_STATUS_SUCCESSFUL
    (Some (basic_status (Some (this_update, Some next_update)))) now age =
  (if next_update <=? now then (0, now)
   else if this_update + (next_update - this_update) / 2 <=? now then (0, 0)
   else (-1, 0)) /\
  ocsp_stale_response OCSP_RESPONSE_STATUS_SUCCESSFUL
    (Some (basic_status (Some (0, Some 100)))) 50 50 = (0, 0) /\
  ocsp_stale_response OCSP_RESPONSE_STATUS_SUCCESSFUL
    (Some (basic_status (Some (0, Some 100)))) 100 100 = (0, 100).
Proof.
  intros Hd. split; [|split; reflexivity].
  unfold ocsp_stale_response, X509_cmp_time, ASN1_TIME_diff. simpl.
  destruct (Z.leb_spec next_update now); [reflexivity|]. simpl.
  set (d := next_update - this_update) in *.
  assert (Hq : Z.quot d 86400 * 86400 + Z.rem d 86400 = d).
  { rewrite Z.mul_comm. symmetry. apply Z.quot_rem. lia. }
  rewrite Hq.
  assert (Hw : wrap_int d = d).
  { unfold wrap_int. rewrite Z.mod_small by lia. lia. }
  rewrite Hw, Z.quot_div_nonneg by lia.
  destruct (Z.leb_spec this_update (now - d / 2));
    destruct (Z.leb_spec (this_update + d / 2) now); simpl; try reflexivity; lia.
Qed.

Lemma ocsp_stale_boundaries_witness :
  0 <= 100 - 0 < 2 ^ 31 /\
  (ocsp_stale_response OCSP_RESPONSE_STATUS_SUCCESSFUL
     (Some (basic_status (Some (0, Some 100)))) 50 50 =
   (if 100 <=? 50 then (0, 50)
    else if 0 + (100 - 0) / 2 <=? 50 then (0, 0)
    else (-1, 0)) /\
   ocsp_stale_response OCSP_RESPONSE_STATUS_SUCCESSFUL
     (Some (basic_status (Some (0, Some 100)))) 50 50 = (0, 0) /\
   ocsp_stale_response OCSP_RESPONSE_STATUS_SUCCESSFUL
     (Some (basic_status (Some (0, Some 100)))) 100 100 = (0, 100)).
Proof.
  split; [lia|]. apply (ocsp_stale_boundaries 0 100 50 50). lia.
Defined.

(** ** The DH parameter callback *)

Lemma dh_search_inl (t : Z) (l : list dh) (b : option dh) (d : dh) :
  dh_search t l b = inl d ->
  exists l1 l2, l = l1 ++ d :: l2 /\ dh_len d = t /\ Forall (fun x => dh_len x <> t) l1.
Proof.
  revert b. induction l as [|x l IH]; intros b H; simpl in H; [discriminate|].
  destruct (Z.eqb_spec (dh_len x) t) as [Ht|Ht].
  - injection H as <-. exists [], l. repeat split; auto.
  - destruct (IH _ H) as (l1 & l2 & -> & Hd & Hf).
    exists (x :: l1), l2. repeat split; auto.
Qed.

Lemma dh_search_exact (t : Z) (l : list dh) (b : option dh) :
  (exists d, In d l /\ dh_len d = t) -> exists d, dh_search t l b = inl d.
Proof.
  revert b. induction l as [|x l IH]; intros b [d [Hin Hd]]; [destruct Hin|].
  simpl. destruct (Z.eqb_spec (dh_len x) t) as [Ht|Ht]; [eauto|].
  apply IH. destruct Hin as [->|Hin]; [congruence|eauto].
Qed.

Lemma dh_search_no_exact (t : Z) (l : list dh) (b : option dh) :
  (forall d, In d l -> dh_len d <> t) -> exists r, dh_search t l b = inr r.
Proof.
  revert b. induction l as [|x l IH]; intros b H; simpl; [eauto|].
  destruct (Z.eqb_spec (dh_len x) t) as [Ht|Ht].
  - exfalso. apply (H x); [left; reflexivity | exact Ht].
  - apply IH. intros d Hd. apply H. right. exact Hd.
Qed.

(** What the "best" search leaves when no exact size is found: the
    smallest of [b] and of the blocks larger than [t]. *)
Lemma dh_search_inr (t : Z) (l : list dh) (b r : option dh) :
  dh_search t l b = inr r ->
  (r = None -> b = None /\ forall d, In d l -> dh_len d <= t) /\
  (forall x, r = Some x ->
     (b = Some x \/ (In x l /\ t < dh_len x)) /\
     (forall y, b = Some y -> dh_len x <= dh_len y) /\
     (forall d, In d l -> t < dh_len d -> dh_len x <= dh_len d)).
Proof.
  revert b. induction l as [|x l IH]; intros b H; simpl in H.
  - injection H as <-. split; [intros ->; split; [reflexivity | intros d []]|].
    intros x ->. split; [left; reflexivity|]. split; [|intros d []].
    intros y Hy. injection Hy as ->. lia.
  - destruct (Z.eqb_spec (dh_len x) t) as [Ht|Ht]; [discriminate|].
    destruct (IH _ H) as [HN HS]. clear IH H.
    destruct (Z.ltb_spec t (dh_len x)) as [Hlt|Hge].
    + destruct b as [y|].
      * destruct (Z.ltb_spec (dh_len x) (dh_len y)) as [Hxy|Hxy].
        -- split; [intros Hr; destruct (HN Hr); discriminate|].
           intros z Hz. destruct (HS z Hz) as (Hzb & Hzy & Hzl).
           specialize (Hzy x eq_refl).
           split; [destruct Hzb as [Hzb|[Hzb Hzt]];
                   [injection Hzb as <-; right; split; [left|]; auto | right; split; [right|]; auto]|].
           split; [intros y' Hy'; injection Hy' as <-; lia|].
           intros d [<-|Hd] Hdt; [lia | apply Hzl; auto].
        -- split; [intros Hr; destruct (HN Hr); discriminate|].
           intros z Hz. destruct (HS z Hz) as (Hzb & Hzy & Hzl).
           specialize (Hzy y eq_refl).
           split; [destruct Hzb as [Hzb|[Hzb Hzt]]; [left; auto | right; split; [right|]; auto]|].
           split; [intros y' Hy'; injection Hy' as <-; lia|].
           intros d [<-|Hd] Hdt; [lia | apply Hzl; auto].
      * split; [intros Hr; destruct (HN Hr); discriminate|].
        intros z Hz. destruct (HS z Hz) as (Hzb & Hzy & Hzl).
        specialize (Hzy x eq_refl).
        split; [destruct Hzb as [Hzb|[Hzb Hzt]];
                [injection Hzb as <-; right; split; [left|]; auto | right; split; [right|]; auto]|].
        split; [discriminate|].
        intros d [<-|Hd] Hdt; [lia | apply Hzl; auto].
    + split.
      * intros Hr. destruct (HN Hr) as [Hb Hl]. split; [exact Hb|].
        intros d [<-|Hd]; [lia | apply Hl; exact Hd].
      * intros z Hz. destruct (HS z Hz) as (Hzb & Hzy & Hzl).
        split; [destruct Hzb as [Hzb|[Hzb Hzt]]; [left; auto | right; split; [right|]; auto]|].
        split; [exact Hzy|].
        intros d [<-|Hd] Hdt; [lia | apply Hzl; auto].
Qed.

(** C6 (as amended): with [pkeylen] the certificate key length of
    [dh_pkeylen] (the RSA/DSA key size, raised to 2048 below 2048 unless
    AllowWeakDH is set, and 0 for other keys), [tls_dh_cb] returns from
    its list of DH blocks (configured ones and built-ins used before)
    the first block of exactly [keylen] bits; failing that the first of
    exactly [pkeylen] bits; failing that a smallest block among those
    larger than [keylen] or larger than [pkeylen]; and otherwise a
    built-in block, appended to the list, for the length
    [dh_builtin_keylen] ([pkeylen] when an RSA/DSA key gave a different
    length, else [keylen] raised to 2048 below 2048 unless AllowWeakDH
    is set), the 1024-bit one for lengths outside 512, 768, 1024, 1536,
    2048, 3072, 4096. *)
Theorem tls_dh_cb_selection (allow_weak : bool) (pk : option pkey) (dhs : list dh) (keylen : Z) :
  let pkeylen := fst (dh_pkeylen allow_weak pk keylen) in
  let res := tls_dh_cb allow_weak pk dhs keylen in
  ((exists d, In d dhs /\ dh_len d = keylen) ->
   snd res = dhs /\
   exists l1 l2, dhs = l1 ++ fst res :: l2 /\ dh_len (fst res) = keylen /\
                 Forall (fun x => dh_len x <> keylen) l1) /\
  ((forall d, In d dhs -> dh_len d <> keylen) ->
   (exists d, In d dhs /\ dh_len d = pkeylen) ->
   snd res = dhs /\
   exists l1 l2, dhs = l1 ++ fst res :: l2 /\ dh_len (fst res) = pkeylen /\
                 Forall (fun x => dh_len x <> pkeylen) l1) /\
  ((forall d, In d dhs -> dh_len d <> keylen /\ dh_len d <> pkeylen) ->
   (exists d, In d dhs /\ (keylen < dh_len d \/ pkeylen < dh_len d)) ->
   snd res = dhs /\ In (fst res) dhs /\
   (keylen < dh_len (fst res) \/ pkeylen < dh_len (fst res)) /\
   (forall d, In d dhs -> keylen < dh_len d \/ pkeylen < dh_len d ->
    dh_len (fst res) <= dh_len d)) /\
  ((forall d, In d dhs -> dh_len d < keylen /\ dh_len d < pkeylen) ->
   fst res = builtin_dh (dh_builtin_keylen allow_weak pk keylen) /\
   snd res = dhs ++ [fst res]) /\
  (forall n, dh_len (builtin_dh n) =
             if existsb (Z.eqb n) [512; 768; 1024; 1536; 2048; 3072; 4096] then n else 1024).
Proof.
  intros pkeylen res. subst res.
  unfold tls_dh_cb. fold pkeylen.
  set (fallback := (builtin_dh (dh_builtin_keylen allow_weak pk keylen),
                    dhs ++ [builtin_dh (dh_builtin_keylen allow_weak pk keylen)])).
  split; [|split; [|split; [|split]]].
  - intros Hex. destruct dhs as [|d0 l0]; [destruct Hex as [? [[] _]]|].
    destruct (dh_search_exact keylen (d0 :: l0) None Hex) as [d Hd]. rewrite Hd.
    split; [reflexivity|]. apply (dh_search_inl _ _ _ _ Hd).
  - intros Hno Hex. destruct dhs as [|d0 l0]; [destruct Hex as [? [[] _]]|].
    destruct (dh_search_no_exact keylen (d0 :: l0) None Hno) as [b1 Hb1]. rewrite Hb1.
    destruct (dh_search_exact pkeylen (d0 :: l0) b1 Hex) as [d Hd]. rewrite Hd.
    split; [reflexivity|]. apply (dh_search_inl _ _ _ _ Hd).
  - intros Hno Hex. destruct dhs as [|d0 l0]; [destruct Hex as [? [[] _]]|].
    destruct (dh_search_no_exact keylen (d0 :: l0) None
                (fun d Hd => proj1 (Hno d Hd))) as [b1 Hb1]. rewrite Hb1.
    destruct (dh_search_no_exact pkeylen (d0 :: l0) b1
                (fun d Hd => proj2 (Hno d Hd))) as [b2 Hb2]. rewrite Hb2.
    destruct (dh_search_inr _ _ _ _ Hb1) as [HN1 HS1].
    destruct (dh_search_inr _ _ _ _ Hb2) as [HN2 HS2].
    destruct b2 as [x|].
    + simpl. destruct (HS2 x eq_refl) as (Hxb & Hxy & Hxl).
      split; [reflexivity|].
      assert (Hx : In x (d0 :: l0) /\ (keylen < dh_len x \/ pkeylen < dh_len x)).
      { destruct Hxb as [Hxb | [Hin Hlt]]; [|auto].
        subst b1. destruct (HS1 x eq_refl) as ([Hc|[Hin Hlt]] & _); [discriminate|auto]. }
      split; [apply Hx|]. split; [apply Hx|].
      intros d Hd [Hlt|Hlt]; [|apply Hxl; assumption].
      destruct b1 as [y|].
      * destruct (HS1 y eq_refl) as (_ & _ & Hyl).
        specialize (Hxy y eq_refl). specialize (Hyl d Hd Hlt). lia.
      * destruct (HN1 eq_refl) as [_ Hle]. specialize (Hle d Hd). lia.
    + exfalso. destruct (HN2 eq_refl) as [-> Hle2]. destruct (HN1 eq_refl) as [_ Hle1].
      destruct Hex as [d [Hd [Hlt|Hlt]]];
        [specialize (Hle1 d Hd) | specialize (Hle2 d Hd)]; lia.
  - intros Hlt. destruct dhs as [|d0 l0]; [split; reflexivity|].
    destruct (dh_search_no_exact keylen (d0 :: l0) None
                (fun d Hd => ltac:(specialize (Hlt d Hd); lia))) as [b1 Hb1]. rewrite Hb1.
    destruct (dh_search_no_exact pkeylen (d0 :: l0) b1
                (fun d Hd => ltac:(specialize (Hlt d Hd); lia))) as [b2 Hb2]. rewrite Hb2.
    destruct (dh_search_inr _ _ _ _ Hb1) as [_ HS1].
    destruct (dh_search_inr _ _ _ _ Hb2) as [_ HS2].
    destruct b2 as [x|]; [|split; reflexivity].
    exfalso. destruct (HS2 x eq_refl) as ([Hxb | [Hin Hgt]] & _ & _).
    + subst b1. destruct (HS1 x eq_refl) as ([Hc | [Hin Hgt]] & _ & _); [discriminate|].
      specialize (Hlt x Hin). lia.
    + specialize (Hlt x Hin). lia.
  - intros n. unfold builtin_dh. simpl.
    destruct (n =? 512), (n =? 768), (n =? 1024), (n =? 1536), (n =? 2048),
             (n =? 3072), (n =? 4096); reflexivity.
Qed.

(** C6 fails as stated: with AllowWeakDH set, a 4096-bit RSA key,
    configured 1536- and 4096-bit blocks and a request for 1024 bits,
    the second search (for the certificate key length) returns the
    4096-bit block, not the smallest block larger than 1024 bits. *)
Lemma tls_dh_cb_counterexample :
  let dhs := [dh_configured 1 1536; dh_configured 2 4096] in
  fst (tls_dh_cb true (Some (mk_pkey EVP_PKEY_RSA 4096)) dhs 1024) = dh_configured 2 4096 /\
  dh_len (fst (tls_dh_cb true (Some (mk_pkey EVP_PKEY_RSA 4096)) dhs 1024)) <> 1536.
Proof. split; [reflexivity | discriminate]. Qed.

(** ** Peeking at the next data *)

(** C8: when a bidirectional shutdown reaches the point of awaiting the
    peer's close_notify (close_notify sent, none received yet, a
    connection at hand), the code peeks at the first three bytes the
    peer sends within five seconds: when one of them is not printable
    the shutdown goes on with a second [SSL_shutdown()]; when all are
    printable (as for a plaintext FTP command) the SSL is freed at once
    without waiting for the peer.  (When nothing arrives within the five
    seconds the data are assumed to be TLS and the shutdown goes on.) *)
Theorem tls_end_sess_peek (is_print : Z -> bool) (sent_shutdown : bool) (first_res : Z)
    (delay : Z) (data : list Z) :
  (if sent_shutdown then 0 else first_res) = 0 ->
  delay <= PEEK_WAIT_SECS ->
  (existsb (fun c => negb (is_print c)) (firstn 3 data) = true ->
   tls_end_sess_shutdown is_print sent_shutdown first_res true false true
     (peer_sends delay data) = ES_SECOND_SHUTDOWN) /\
  (forallb is_print (firstn 3 data) = true ->
   tls_end_sess_shutdown is_print sent_shutdown first_res true false true
     (peer_sends delay data) = ES_FREED_UNCLEAN) /\
  tls_end_sess_shutdown is_print sent_shutdown first_res true false true peer_silent
    = ES_SECOND_SHUTDOWN.
Proof.
  intros Hres Hd. unfold tls_end_sess_shutdown, peek_is_ssl_data.
  rewrite Hres. cbn -[existsb firstn PEEK_WAIT_SECS].
  destruct (Z.ltb_spec PEEK_WAIT_SECS delay) as [Hlt|_]; [lia|].
  split; [|split; [|reflexivity]].
  - intros H. unfold PEEK_BUF_LEN. rewrite H. reflexivity.
  - intros H. unfold PEEK_BUF_LEN.
    assert (Hn : existsb (fun c => negb (is_print c)) (firstn 3 data) = false).
    { apply not_true_is_false. intros He. apply existsb_exists in He.
      destruct He as [c [Hc Hp]]. apply forallb_forall with (x := c) in H; [|exact Hc].
      rewrite H in Hp. discriminate. }
    rewrite Hn. reflexivity.
Qed.

(** The witness of [tls_end_sess_peek]: "USER" sent in plaintext right
    away, with the C locale's [isprint]. *)
Lemma tls_end_sess_peek_witness :
  (if false then 0 else 0) = 0 /\ 0 <= PEEK_WAIT_SECS /\
  ((existsb (fun c => negb (c_isprint c)) (firstn 3 [85; 83; 69; 82]) = true ->
    tls_end_sess_shutdown c_isprint false 0 true false true
      (peer_sends 0 [85; 83; 69; 82]) = ES_SECOND_SHUTDOWN) /\
   (forallb c_isprint (firstn 3 [85; 83; 69; 82]) = true ->
    tls_end_sess_shutdown c_isprint false 0 true false true
      (peer_sends 0 [85; 83; 69; 82]) = ES_FREED_UNCLEAN) /\
   tls_end_sess_shutdown c_isprint false 0 true false true peer_silent
     = ES_SECOND_SHUTDOWN).
Proof.
  split; [reflexivity|]. split; [unfold PEEK_WAIT_SECS; lia|].
  apply (tls_end_sess_peek c_isprint false 0 0 [85; 83; 69; 82]);
    [reflexivity | unfold PEEK_WAIT_SECS; lia].
Defined.

(** ** Session reuse on data connections *)

Lemma bytes_eqb_spec (a b : list Z) : bytes_eqb a b = true <-> a = b.
Proof.
  revert b. induction a as [|x a IH]; intros [|y b]; simpl;
    try (split; [discriminate | congruence]); [tauto|].
  rewrite andb_true_iff, Z.eqb_eq, IH. split; [intros [-> ->]; reflexivity|].
  intros H; injection H as -> ->; auto.
Qed.

Lemma tls_compare_session_ids_spec (c d : list Z) :
  tls_compare_session_ids c d = 0 <-> c = d.
Proof.
  unfold tls_compare_session_ids.
  destruct (Nat.eqb_spec (List.length c) (List.length d)) as [Hl|Hl].
  - destruct (bytes_eqb c d) eqn:E.
    + apply bytes_eqb_spec in E. split; auto.
    + split; [discriminate|]. intros ->. rewrite (proj2 (bytes_eqb_spec d d) eq_refl) in E.
      discriminate.
  - split; [discriminate|]. intros ->. contradiction.
Qed.

(** When the session ids differ, the appdata comparison accepts exactly
    in a TLSv1.3 build without the ticket callback, or in one with it
    when both channels carry the same non-empty appdata. *)
Lemma ticket_appdata_match_spec (b : build) (h : data_hs) (c d : list Z) :
  ticket_appdata_match b h (tls_compare_session_ids c d) = 0 <->
  c = d \/
  (have_tls13 b = true /\ have_ticket_cb b = false) \/
  (have_tls13 b = true /\ have_ticket_cb b = true /\
   dh_ctrl_appdata h <> [] /\ dh_ctrl_appdata h = dh_data_appdata h).
Proof.
  unfold ticket_appdata_match.
  pose proof (tls_compare_session_ids_spec c d) as Hc.
  destruct (have_tls13 b), (have_ticket_cb b); simpl.
  - destruct (Z.eqb_spec (tls_compare_session_ids c d) 0) as [H0|H0].
    + rewrite H0. split; [intros _; left; apply Hc; exact H0 | reflexivity].
    + destruct (Nat.ltb_spec 0 (List.length (dh_ctrl_appdata h))) as [L1|L1];
      destruct (Nat.ltb_spec 0 (List.length (dh_data_appdata h))) as [L2|L2];
      destruct (Nat.eqb_spec (List.length (dh_ctrl_appdata h))
                             (List.length (dh_data_appdata h))) as [L3|L3]; simpl;
      try (split; [intros H; congruence
                  | intros [H|[[_ H]|(_ & _ & Hne & Heq)]];
                    [apply Hc in H; congruence | discriminate
                    | destruct (dh_ctrl_appdata h); [congruence|];
                      rewrite <- Heq in *; simpl in *; lia]]).
      destruct (bytes_eqb (dh_ctrl_appdata h) (dh_data_appdata h)) eqn:E.
      * apply bytes_eqb_spec in E. split; [|reflexivity]. intros _. right. right.
        repeat split; auto. intros Hn. rewrite Hn in L1. simpl in L1. lia.
      * split; [discriminate|].
        intros [H|[[_ H]|(_ & _ & _ & Heq)]]; [apply Hc in H; congruence | discriminate |].
        rewrite (proj2 (bytes_eqb_spec _ _) Heq) in E. discriminate.
  - destruct (tls_compare_session_ids c d =? 0) eqn:E.
    + apply Z.eqb_eq in E. rewrite E. tauto.
    + split; [intros _; right; left; auto | intros _; reflexivity].
  - split; [intros H; left; apply Hc; exact H|].
    intros [H|[[H _]|(H & _)]]; [apply Hc; exact H | discriminate | discriminate].
  - split; [intros H; left; apply Hc; exact H|].
    intros [H|[[H _]|(H & _)]]; [apply Hc; exact H | discriminate | discriminate].
Qed.

(** C1 (as amended): when NoSessionReuseRequired is not set and no CCC
    was issued, a data connection whose handshake succeeded is kept
    exactly when the client reused a session, both sessions are
    available, and either the session ids are equal, or the build has
    TLSv1.3 and the ticket callback and both channels' ticket appdata
    are the same non-empty bytes, or the build has TLSv1.3 without the
    ticket callback (where differing ids are let through).  Otherwise
    [tls_accept] shuts the data TLS session down and returns -1; the
    control session is left alone. *)
Theorem tls_accept_data_reuse (b : build) (h : data_hs) :
  has_flag (dh_opts h) TLS_OPT_NO_SESSION_REUSE_REQUIRED = false ->
  has_flag (dh_flags h) TLS_SESS_HAVE_CCC = false ->
  (tls_accept_data b h <> accept_fail <->
   dh_reused h = 1 /\
   exists c d, dh_ctrl_sess h = Some c /\ dh_data_sess h = Some d /\
   (c = d \/
    (have_tls13 b = true /\ have_ticket_cb b = false) \/
    (have_tls13 b = true /\ have_ticket_cb b = true /\
     dh_ctrl_appdata h <> [] /\ dh_ctrl_appdata h = dh_data_appdata h))) /\
  (tls_accept_data b h = accept_fail \/
   tls_accept_data b h = accept_ok 0).
Proof.
  intros Ho Hf. unfold tls_accept_data. rewrite Ho, Hf. simpl.
  destruct (Z.eqb_spec (dh_reused h) 1) as [Hr|Hr]; simpl.
  - destruct (dh_ctrl_sess h) as [c|];
      [|split; [split; [congruence | intros (_ & c & d & Hc & _); discriminate] | auto]].
    destruct (dh_data_sess h) as [d|];
      [|split; [split; [congruence | intros (_ & c' & d & _ & Hd & _); discriminate] | auto]].
    pose proof (ticket_appdata_match_spec b h c d) as Hm.
    destruct (Z.eqb_spec (ticket_appdata_match b h (tls_compare_session_ids c d)) 0)
      as [H0|H0]; simpl.
    + split; [|right; reflexivity]. split; [intros _|discriminate].
      split; [exact Hr|]. exists c, d. repeat split; auto. apply Hm. exact H0.
    + split; [|left; reflexivity]. split; [congruence|].
      intros (_ & c' & d' & Hc & Hd & H). injection Hc as <-. injection Hd as <-.
      exfalso. apply H0, Hm, H.
  - split; [|left; reflexivity]. split; [congruence | intros [H _]; contradiction].
Qed.

(** The witness of [tls_accept_data_reuse]: a TLSv1.3 data session
    resumed from the control session's ticket (empty ids, same
    appdata). *)
Lemma tls_accept_data_reuse_witness :
  let b := mk_build true true in
  let h := mk_data_hs 0 TLS_SESS_ON_CTRL 1 (Some [1; 2]) (Some []) [9; 9] [9; 9] in
  has_flag (dh_opts h) TLS_OPT_NO_SESSION_REUSE_REQUIRED = false /\
  has_flag (dh_flags h) TLS_SESS_HAVE_CCC = false /\
  ((tls_accept_data b h <> accept_fail <->
    dh_reused h = 1 /\
    exists c d, dh_ctrl_sess h = Some c /\ dh_data_sess h = Some d /\
    (c = d \/
     (have_tls13 b = true /\ have_ticket_cb b = false) \/
     (have_tls13 b = true /\ have_ticket_cb b = true /\
      dh_ctrl_appdata h <> [] /\ dh_ctrl_appdata h = dh_data_appdata h))) /\
   (tls_accept_data b h = accept_fail \/
    tls_accept_data b h = accept_ok 0)).
Proof.
  intros b h. split; [reflexivity|]. split; [reflexivity|].
  apply tls_accept_data_reuse; reflexivity.
Defined.

(** C1 fails as stated: in a build with TLSv1.3 but without the session
    ticket callback, a resumed data session whose id and appdata both
    differ from the control session's is accepted. *)
Lemma tls_accept_data_counterexample :
  let b := mk_build true false in
  let h := mk_data_hs 0 TLS_SESS_ON_CTRL 1 (Some [1; 2]) (Some [3; 4]) [5] [6] in
  tls_accept_data b h = accept_ok 0 /\
  dh_ctrl_sess h <> dh_data_sess h /\ dh_ctrl_appdata h <> dh_data_appdata h.
Proof. repeat split; discriminate || reflexivity. Qed.

(* ================================================================== *)
(** * Further properties of the code *)

(** ** PBSZ, CCC and SSCN *)

Lemma testbit_pow2_other (f : Z) (k i : Z) :
  0 <= k -> i <> k -> Z.testbit (set_flag f (2 ^ k)) i = Z.testbit f i.
Proof.
  intros Hk Hi. rewrite testbit_set_flag.
  destruct (Z.ltb_spec i 0).
  - rewrite !Z.testbit_neg_r by lia. reflexivity.
  - rewrite Z.pow2_bits_eqb by lia. destruct (Z.eqb_spec k i); [lia|]. apply orb_false_r.
Qed.

(** PBSZ under TLS: on a secured control channel it replies 200 and
    sets PBSZ_OK whatever the size given, leaving every other flag and
    the mechanism as they were; without TLS on the control channel it
    replies 503 and changes nothing; with no argument or several it
    replies 501; with the engine off it declines. *)
Theorem tls_pbsz_replies (s : sess) (arg : string) (args : list string) :
  mech_is_tls s = true ->
  (has_flag (tls_flags s) TLS_SESS_ON_CTRL = true ->
   let o := tls_pbsz true s [arg] in
   out_ret o = PR_HANDLED /\ out_resp o = [R_200] /\ out_disconnect o = false /\
   rfc2228_mech (out_sess o) = rfc2228_mech s /\
   has_flag (tls_flags (out_sess o)) TLS_SESS_PBSZ_OK = true /\
   (forall i, i <> 2 -> Z.testbit (tls_flags (out_sess o)) i = Z.testbit (tls_flags s) i)) /\
  (has_flag (tls_flags s) TLS_SESS_ON_CTRL = false -> tls_pbsz true s [arg] = error R_503 s) /\
  (List.length args <> 1%nat -> tls_pbsz true s args = error R_501 s) /\
  tls_pbsz false s args = declined s.
Proof.
  intros Hm. unfold tls_pbsz. rewrite Hm. simpl.
  split; [|split; [|split]].
  - intros Hon. rewrite Hon. simpl. repeat split; try reflexivity.
    + apply has_flag_set_pbsz.
    + intros i Hi. apply (testbit_pow2_other (tls_flags s) 2 i); lia.
  - intros Hoff. rewrite Hoff. reflexivity.
  - intros Hl. destruct args as [|a [|b r]]; [reflexivity | simpl in Hl; lia | reflexivity].
  - reflexivity.
Qed.

Lemma tls_pbsz_replies_witness :
  mech_is_tls (mk_sess 1 (Some "TLS"%string)) = true /\
  ((has_flag (tls_flags (mk_sess 1 (Some "TLS"%string))) TLS_SESS_ON_CTRL = true ->
    let o := tls_pbsz true (mk_sess 1 (Some "TLS"%string)) ["0"%string] in
    out_ret o = PR_HANDLED /\ out_resp o = [R_200] /\ out_disconnect o = false /\
    rfc2228_mech (out_sess o) = rfc2228_mech (mk_sess 1 (Some "TLS"%string)) /\
    has_flag (tls_flags (out_sess o)) TLS_SESS_PBSZ_OK = true /\
    (forall i, i <> 2 -> Z.testbit (tls_flags (out_sess o)) i =
                         Z.testbit (tls_flags (mk_sess 1 (Some "TLS"%string))) i)) /\
   (has_flag (tls_flags (mk_sess 1 (Some "TLS"%string))) TLS_SESS_ON_CTRL = false ->
    tls_pbsz true (mk_sess 1 (Some "TLS"%string)) ["0"%string] =
    error R_503 (mk_sess 1 (Some "TLS"%string))) /\
   (List.length (@nil string) <> 1%nat ->
    tls_pbsz true (mk_sess 1 (Some "TLS"%string)) [] = error R_501 (mk_sess 1 (Some "TLS"%string))) /\
   tls_pbsz false (mk_sess 1 (Some "TLS"%string)) [] = declined (mk_sess 1 (Some "TLS"%string))).
Proof.
  split; [reflexivity|]. apply (tls_pbsz_replies _ "0"%string []). reflexivity.
Defined.

(** After a successful CCC, PBSZ is refused with 503 (the control
    channel is no longer secured), while PROT C is still accepted. *)
Theorem ccc_then_pbsz_prot (ce : ccc_env) (pe : prot_env) (s : sess) (arg : string) :
  ce_engine ce = true -> ce_required_on_ctrl ce <> 1 -> ce_limit_ok ce = true ->
  mech_is_tls s = true -> has_flag (tls_flags s) TLS_SESS_ON_CTRL = true ->
  pe_engine pe = true -> pe_limit_ok pe = true -> pe_required_on_data pe <> 1 ->
  out_ret (tls_ccc ce s) = PR_HANDLED /\
  tls_pbsz true (out_sess (tls_ccc ce s)) [arg] = error R_503 (out_sess (tls_ccc ce s)) /\
  out_ret (tls_prot pe (out_sess (tls_ccc ce s)) ["C"%string]) = PR_HANDLED /\
  out_resp (tls_prot pe (out_sess (tls_ccc ce s)) ["C"%string]) = [R_200].
Proof.
  intros He Hr Hl Hm Hon Hpe Hpl Hpd.
  destruct (has_flags_after_ccc (tls_flags s)) as [Hoff Hccc].
  assert (Hc : tls_ccc ce s =
    mk_out PR_HANDLED [R_200]
      (mk_sess (set_flag (clear_flag (tls_flags s) TLS_SESS_ON_CTRL) TLS_SESS_HAVE_CCC)
               (rfc2228_mech s)) false).
  { unfold tls_ccc. rewrite He, Hm, Hon, Hl. simpl.
    destruct (Z.eqb_spec (ce_required_on_ctrl ce) 1); [lia|reflexivity]. }
  rewrite Hc. simpl. split; [reflexivity|].
  assert (Hm' : mech_is_tls (mk_sess (set_flag (clear_flag (tls_flags s) TLS_SESS_ON_CTRL)
                   TLS_SESS_HAVE_CCC) (rfc2228_mech s)) = true) by exact Hm.
  split.
  - unfold tls_pbsz. rewrite Hm'. simpl. rewrite Hoff. reflexivity.
  - unfold tls_prot. rewrite Hpe, Hm', Hpl. simpl. rewrite Hoff, Hccc. simpl.
    destruct (Z.eqb_spec (pe_required_on_data pe) 1); [lia|]. split; reflexivity.
Qed.

Lemma ccc_then_pbsz_prot_witness :
  let ce := mk_ccc_env true 0 true in
  let pe := mk_prot_env true 0 true in
  let s := mk_sess 1 (Some "TLS"%string) in
  ce_engine ce = true /\ ce_required_on_ctrl ce <> 1 /\ ce_limit_ok ce = true /\
  mech_is_tls s = true /\ has_flag (tls_flags s) TLS_SESS_ON_CTRL = true /\
  pe_engine pe = true /\ pe_limit_ok pe = true /\ pe_required_on_data pe <> 1 /\
  (out_ret (tls_ccc ce s) = PR_HANDLED /\
   tls_pbsz true (out_sess (tls_ccc ce s)) ["0"%string] = error R_503 (out_sess (tls_ccc ce s)) /\
   out_ret (tls_prot pe (out_sess (tls_ccc ce s)) ["C"%string]) = PR_HANDLED /\
   out_resp (tls_prot pe (out_sess (tls_ccc ce s)) ["C"%string]) = [R_200]).
Proof.
  intros ce pe s.
  split; [reflexivity|]. split; [discriminate|]. split; [reflexivity|].
  split; [reflexivity|]. split; [reflexivity|]. split; [reflexivity|].
  split; [reflexivity|]. split; [discriminate|].
  apply ccc_then_pbsz_prot; (reflexivity || discriminate).
Defined.

(** SSCN under TLS with <Limit> allowing it: "ON" switches to client
    mode and "OFF" to server mode, and a following query reports the
    mode set; any other single argument (including "on", the test is
    case-sensitive) gets 501, two or more arguments 504, both leaving
    the mode as it was; a query leaves the mode alone; SSCN never
    changes the session flags. *)
Theorem tls_sscn_mode_switch (e : sscn_env) (s : sess) (mode : Z) :
  se_engine e = true -> se_limit_ok e = true -> mech_is_tls s = true ->
  (fst (fst (tls_sscn e s mode ["ON"%string])) = mk_out PR_HANDLED [R_200] s false /\
   snd (fst (tls_sscn e s mode ["ON"%string])) = TLS_SSCN_MODE_CLIENT /\
   snd (tls_sscn e s (snd (fst (tls_sscn e s mode ["ON"%string]))) []) =
     Some (se_argv0 e ++ ":CLIENT METHOD")%string) /\
  (fst (fst (tls_sscn e s mode ["OFF"%string])) = mk_out PR_HANDLED [R_200] s false /\
   snd (fst (tls_sscn e s mode ["OFF"%string])) = TLS_SSCN_MODE_SERVER /\
   snd (tls_sscn e s (snd (fst (tls_sscn e s mode ["OFF"%string]))) []) =
     Some (se_argv0 e ++ ":SERVER METHOD")%string) /\
  (forall a, a <> "ON"%string -> a <> "OFF"%string ->
   tls_sscn e s mode [a] = (error R_501 s, mode, None)) /\
  (forall a b rest, tls_sscn e s mode (a :: b :: rest) = (error R_504 s, mode, None)) /\
  fst (fst (tls_sscn e s mode [])) = mk_out PR_HANDLED [R_200] s false /\
  snd (fst (tls_sscn e s mode [])) = mode.
Proof.
  intros He Hl Hm. unfold tls_sscn. rewrite He, Hm, Hl. simpl.
  repeat split; try reflexivity.
  intros a Hon Hoff.
  destruct (String.eqb_spec a "ON"); [contradiction|].
  destruct (String.eqb_spec a "OFF"); [contradiction|]. reflexivity.
Qed.

Lemma tls_sscn_mode_switch_witness :
  let e := mk_sscn_env true true "SSCN" in
  let s := mk_sess 1 (Some "TLS"%string) in
  se_engine e = true /\ se_limit_ok e = true /\ mech_is_tls s = true /\
  ((fst (fst (tls_sscn e s 0 ["ON"%string])) = mk_out PR_HANDLED [R_200] s false /\
    snd (fst (tls_sscn e s 0 ["ON"%string])) = TLS_SSCN_MODE_CLIENT /\
    snd (tls_sscn e s (snd (fst (tls_sscn e s 0 ["ON"%string]))) []) =
      Some (se_argv0 e ++ ":CLIENT METHOD")%string) /\
   (fst (fst (tls_sscn e s 0 ["OFF"%string])) = mk_out PR_HANDLED [R_200] s false /\
    snd (fst (tls_sscn e s 0 ["OFF"%string])) = TLS_SSCN_MODE_SERVER /\
    snd (tls_sscn e s (snd (fst (tls_sscn e s 0 ["OFF"%string]))) []) =
      Some (se_argv0 e ++ ":SERVER METHOD")%string) /\
   (forall a, a <> "ON"%string -> a <> "OFF"%string ->
    tls_sscn e s 0 [a] = (error R_501 s, 0, None)) /\
   (forall a b rest, tls_sscn e s 0 (a :: b :: rest) = (error R_504 s, 0, None)) /\
   fst (fst (tls_sscn e s 0 [])) = mk_out PR_HANDLED [R_200] s false /\
   snd (fst (tls_sscn e s 0 [])) = 0).
Proof.
  intros e s. split; [reflexivity|]. split; [reflexivity|]. split; [reflexivity|].
  apply tls_sscn_mode_switch; reflexivity.
Defined.

(** ** Opening a data stream *)

(** [tls_netio_postopen_cb] runs a TLS handshake on a data stream opened
    for writing exactly when TLSRequired covers data or PROT P set
    NEED_DATA_PROT; it then accepts (server mode) for LIST, MLSD and NLST
    whatever the SSCN mode, and for every command in SSCN server mode,
    and connects (client mode) for the other commands in SSCN client
    mode.  It sets ON_DATA exactly when it succeeds, fails with -1
    leaving the flags as they were, and fails when both peers presented
    certificates that differ between the control and data channels. *)
Theorem tls_netio_postopen_data_tls (e : postopen_env) (data_wr : bool) (flags : Z) :
  let r := tls_netio_postopen_cb e data_wr flags in
  ((data_wr = false \/
    (po_required_on_data e <> 1 /\ has_flag flags TLS_SESS_NEED_DATA_PROT = false)) ->
   r = (0, flags, HS_NONE)) /\
  (data_wr = true ->
   (po_required_on_data e = 1 \/ has_flag flags TLS_SESS_NEED_DATA_PROT = true) ->
   ((is_listing_cmd (po_cmd e) = true \/ po_sscn_mode e = TLS_SSCN_MODE_SERVER) ->
    snd r = HS_ACCEPT) /\
   (is_listing_cmd (po_cmd e) = false -> po_sscn_mode e = TLS_SSCN_MODE_CLIENT ->
    snd r = HS_CONNECT) /\
   (fst (fst r) = 0 -> snd (fst r) = set_flag flags TLS_SESS_ON_DATA) /\
   (fst (fst r) <> 0 -> fst (fst r) = -1 /\ snd (fst r) = flags) /\
   (snd r = HS_ACCEPT -> forall cc dc, po_ctrl_cert e = Some cc -> po_data_cert e = Some dc ->
    cc <> dc -> fst (fst r) = -1)).
Proof.
  intros r. subst r. unfold tls_netio_postopen_cb. split.
  - intros [-> | [Hr Hn]]; [reflexivity|].
    rewrite Hn. destruct (Z.eqb_spec (po_required_on_data e) 1); [lia|].
    destruct data_wr; reflexivity.
  - intros -> Hreq.
    replace (true && ((po_required_on_data e =? 1) ||
                      has_flag flags TLS_SESS_NEED_DATA_PROT)) with true
      by (destruct Hreq as [H|H]; rewrite H; [reflexivity|]; simpl;
          rewrite orb_true_r; reflexivity).
    destruct (is_listing_cmd (po_cmd e)) eqn:Hl;
    destruct (Z.eqb_spec (po_sscn_mode e) TLS_SSCN_MODE_SERVER) as [Hs|Hs];
    destruct (Z.eqb_spec (po_sscn_mode e) TLS_SSCN_MODE_CLIENT) as [Hc|Hc];
    simpl; destruct (po_accept_ok e), (po_connect_ok e); simpl;
    destruct (po_ctrl_cert e) as [cc|], (po_data_cert e) as [dc|]; simpl;
    try destruct (Z.eqb_spec cc dc); simpl;
    unfold TLS_SSCN_MODE_SERVER, TLS_SSCN_MODE_CLIENT in *;
    repeat split; intros; simpl in *;
    try discriminate; try congruence; try lia;
    try (match goal with H : _ \/ _ |- _ => destruct H end; congruence).
Qed.

(** PROT decides what the next data stream does: on a secured control
    channel, after PROT C (accepted when TLSRequired does not cover
    data) the data stream opens without TLS, and after PROT P (accepted
    when TLSRequired does not forbid data TLS) it runs a TLS handshake. *)
Theorem prot_then_data_stream (pe : prot_env) (e : postopen_env) (s : sess) :
  pe_engine pe = true -> pe_limit_ok pe = true -> mech_is_tls s = true ->
  has_flag (tls_flags s) TLS_SESS_ON_CTRL = true ->
  po_required_on_data e = pe_required_on_data pe ->
  (po_sscn_mode e = TLS_SSCN_MODE_SERVER \/ po_sscn_mode e = TLS_SSCN_MODE_CLIENT) ->
  (pe_required_on_data pe <> 1 ->
   out_ret (tls_prot pe s ["C"%string]) = PR_HANDLED /\
   tls_netio_postopen_cb e true (tls_flags (out_sess (tls_prot pe s ["C"%string]))) =
     (0, tls_flags (out_sess (tls_prot pe s ["C"%string])), HS_NONE)) /\
  (pe_required_on_data pe <> -1 ->
   out_ret (tls_prot pe s ["P"%string]) = PR_HANDLED /\
   snd (tls_netio_postopen_cb e true (tls_flags (out_sess (tls_prot pe s ["P"%string]))))
     <> HS_NONE).
Proof.
  intros He Hl Hm Hon Hreq Hmode.
  unfold tls_prot. rewrite He, Hm, Hon, Hl. simpl. split.
  - intros Hr. destruct (Z.eqb_spec (pe_required_on_data pe) 1); [lia|]. simpl.
    split; [reflexivity|].
    unfold tls_netio_postopen_cb. rewrite Hreq.
    destruct (Z.eqb_spec (pe_required_on_data pe) 1); [lia|]. simpl.
    replace (has_flag (set_flag (clear_flag (tls_flags s) TLS_SESS_NEED_DATA_PROT)
               TLS_SESS_PBSZ_OK) TLS_SESS_NEED_DATA_PROT) with false
      by (flag_bits; reflexivity).
    reflexivity.
  - intros Hr. destruct (Z.eqb_spec (pe_required_on_data pe) (-1)); [lia|]. simpl.
    split; [reflexivity|].
    unfold tls_netio_postopen_cb.
    replace (has_flag (set_flag (set_flag (tls_flags s) TLS_SESS_NEED_DATA_PROT)
               TLS_SESS_PBSZ_OK) TLS_SESS_NEED_DATA_PROT) with true
      by (flag_bits; reflexivity).
    rewrite orb_true_r. simpl.
    destruct Hmode as [Hs|Hc].
    + rewrite Hs. simpl. rewrite orb_true_r.
      destruct (po_accept_ok e); simpl; [|discriminate].
      destruct (po_ctrl_cert e), (po_data_cert e); try discriminate.
      destruct (negb _); discriminate.
    + rewrite Hc. simpl. rewrite orb_false_r.
      destruct (is_listing_cmd (po_cmd e)).
      * destruct (po_accept_ok e); simpl; [|discriminate].
        destruct (po_ctrl_cert e), (po_data_cert e); try discriminate.
        destruct (negb _); discriminate.
      * destruct (po_connect_ok e); discriminate.
Qed.

Lemma prot_then_data_stream_witness :
  let pe := mk_prot_env true 0 true in
  let e := mk_postopen_env 0 TLS_SSCN_MODE_SERVER PR_CMD_RETR_ID true None None true in
  let s := mk_sess 1 (Some "TLS"%string) in
  pe_engine pe = true /\ pe_limit_ok pe = true /\ mech_is_tls s = true /\
  has_flag (tls_flags s) TLS_SESS_ON_CTRL = true /\
  po_required_on_data e = pe_required_on_data pe /\
  (po_sscn_mode e = TLS_SSCN_MODE_SERVER \/ po_sscn_mode e = TLS_SSCN_MODE_CLIENT) /\
  ((pe_required_on_data pe <> 1 ->
    out_ret (tls_prot pe s ["C"%string]) = PR_HANDLED /\
    tls_netio_postopen_cb e true (tls_flags (out_sess (tls_prot pe s ["C"%string]))) =
      (0, tls_flags (out_sess (tls_prot pe s ["C"%string])), HS_NONE)) /\
   (pe_required_on_data pe <> -1 ->
    out_ret (tls_prot pe s ["P"%string]) = PR_HANDLED /\
    snd (tls_netio_postopen_cb e true (tls_flags (out_sess (tls_prot pe s ["P"%string]))))
      <> HS_NONE)).
Proof.
  intros pe e s.
  do 4 (split; [reflexivity|]). split; [reflexivity|]. split; [left; reflexivity|].
  apply prot_then_data_stream; try reflexivity. left; reflexivity.
Defined.

(** ** The pre-command hook [tls_any] *)

(** [tls_any] never handles a command itself and never changes the
    session: it declines (the command goes on) or refuses it with 550 or
    522 and nothing else.  SYST, AUTH, FEAT, HOST, CLNT and QUIT always go
    on; a 550 only comes when the control channel is not secured, and a
    522 only for a data-transfer command (APPE, LIST, MLSD, NLST, RETR,
    STOR, STOU) while PROT P is not in effect. *)
Theorem tls_any_outcomes (e : any_env) (s : sess) (c : cmd_id) :
  out_ret (tls_any e s c) <> PR_HANDLED /\
  out_sess (tls_any e s c) = s /\ out_disconnect (tls_any e s c) = false /\
  (tls_any e s c = declined s \/ tls_any e s c = error R_550 s \/
   tls_any e s c = error R_522 s) /\
  (any_exempt_cmd c = true -> tls_any e s c = declined s) /\
  (tls_any e s c = error R_550 s -> has_flag (tls_flags s) TLS_SESS_ON_CTRL = false) /\
  (tls_any e s c = error R_522 s ->
   any_xfer_cmd c = true /\ has_flag (tls_flags s) TLS_SESS_NEED_DATA_PROT = false).
Proof.
  assert (H : tls_any e s c = declined s \/
              (tls_any e s c = error R_550 s /\ has_flag (tls_flags s) TLS_SESS_ON_CTRL = false) \/
              (tls_any e s c = error R_522 s /\ any_xfer_cmd c = true /\
               has_flag (tls_flags s) TLS_SESS_NEED_DATA_PROT = false)).
  { unfold tls_any.
    destruct (ye_engine e); [|left; reflexivity]. simpl.
    destruct (any_exempt_cmd c); [left; reflexivity|].
    destruct (has_flag (tls_flags s) TLS_SESS_ON_CTRL) eqn:Hon;
    destruct (has_flag (tls_flags s) TLS_SESS_NEED_DATA_PROT) eqn:Hn;
    destruct (any_xfer_cmd c) eqn:Hx;
    destruct (ye_dir_required e) as [r|]; simpl;
    rewrite ?andb_false_r, ?andb_false_l, ?andb_true_r; simpl;
    repeat match goal with |- context [if ?b then _ else _] => destruct b end;
    auto 6. }
  assert (Hex : any_exempt_cmd c = true -> tls_any e s c = declined s).
  { intros He. unfold tls_any. rewrite He. destruct (ye_engine e); reflexivity. }
  destruct (any_exempt_cmd c) eqn:E.
  - rewrite (Hex eq_refl). simpl.
    repeat split; intros; try discriminate; auto.
  - clear Hex.
    destruct H as [H | [[H Hf] | [H Hf]]]; rewrite H; simpl;
    repeat split; intros; try discriminate; auto; try tauto;
    match goal with H' : _ = _ |- _ => discriminate H' end.
Qed.

(** With TLSRequired covering data, a data-transfer command is refused
    with 522 until PROT P; after a successful PROT P the same command
    goes on. *)
Theorem tls_any_after_prot_p (ye : any_env) (pe : prot_env) (s : sess) (c : cmd_id) :
  ye_engine ye = true -> ye_required_on_data ye = 1 -> any_xfer_cmd c = true ->
  pe_engine pe = true -> pe_limit_ok pe = true -> pe_required_on_data pe = 1 ->
  mech_is_tls s = true -> has_flag (tls_flags s) TLS_SESS_ON_CTRL = true ->
  has_flag (tls_flags s) TLS_SESS_NEED_DATA_PROT = false ->
  tls_any ye s c = error R_522 s /\
  out_ret (tls_prot pe s ["P"%string]) = PR_HANDLED /\
  tls_any ye (out_sess (tls_prot pe s ["P"%string])) c =
    declined (out_sess (tls_prot pe s ["P"%string])).
Proof.
  intros He Hd Hx Hpe Hpl Hpd Hm Hon Hn.
  assert (Hnx : any_exempt_cmd c = false) by (destruct c; simpl in *; congruence).
  split.
  - unfold tls_any. rewrite He, Hnx, Hon, Hd, Hn, Hx. simpl.
    rewrite !andb_false_r. reflexivity.
  - unfold tls_prot. rewrite Hpe, Hm, Hon, Hpl, Hpd. simpl. split; [reflexivity|].
    unfold tls_any. rewrite He, Hnx, Hd. simpl.
    replace (has_flag (set_flag (set_flag (tls_flags s) TLS_SESS_NEED_DATA_PROT)
               TLS_SESS_PBSZ_OK) TLS_SESS_ON_CTRL) with true
      by (rewrite !has_on_ctrl in *; rewrite !testbit_set_flag, Hon; reflexivity).
    replace (has_flag (set_flag (set_flag (tls_flags s) TLS_SESS_NEED_DATA_PROT)
               TLS_SESS_PBSZ_OK) TLS_SESS_NEED_DATA_PROT) with true
      by (flag_bits; reflexivity).
    rewrite !andb_false_r. simpl. reflexivity.
Qed.

Lemma tls_any_after_prot_p_witness :
  let ye := mk_any_env true 0 0 1 0 None None in
  let pe := mk_prot_env true 1 true in
  let s := mk_sess 1 (Some "TLS"%string) in
  ye_engine ye = true /\ ye_required_on_data ye = 1 /\ any_xfer_cmd PR_CMD_RETR_ID = true /\
  pe_engine pe = true /\ pe_limit_ok pe = true /\ pe_required_on_data pe = 1 /\
  mech_is_tls s = true /\ has_flag (tls_flags s) TLS_SESS_ON_CTRL = true /\
  has_flag (tls_flags s) TLS_SESS_NEED_DATA_PROT = false /\
  (tls_any ye s PR_CMD_RETR_ID = error R_522 s /\
   out_ret (tls_prot pe s ["P"%string]) = PR_HANDLED /\
   tls_any ye (out_sess (tls_prot pe s ["P"%string])) PR_CMD_RETR_ID =
     declined (out_sess (tls_prot pe s ["P"%string]))).
Proof.
  intros ye pe s. do 9 (split; [reflexivity|]).
  apply tls_any_after_prot_p; reflexivity.
Defined.

(** ** Protocol versions *)

Lemma testbit_ssl_op (k i : Z) : 0 <= k -> Z.testbit (2 ^ k) i = (k =? i).
Proof.
  intros Hk. destruct (Z.ltb_spec i 0).
  - rewrite Z.testbit_neg_r by lia. destruct (Z.eqb_spec k i); [lia|reflexivity].
  - apply Z.pow2_bits_eqb; lia.
Qed.

Lemma testbit_cond_clear (b : bool) (d x i : Z) :
  0 <= i -> Z.testbit (if b then clear_flag d x else d) i = Z.testbit d i && negb (b && Z.testbit x i).
Proof.
  intros Hi. destruct b; simpl.
  - apply testbit_clear_flag; lia.
  - rewrite andb_true_r. reflexivity.
Qed.

Lemma testbit_cond_set (b : bool) (d x i : Z) :
  Z.testbit (if b then Z.lor d x else d) i = Z.testbit d i || (b && Z.testbit x i).
Proof. destruct b; simpl; [apply Z.lor_spec | rewrite orb_false_r; reflexivity]. Qed.

Lemma get_disabled_protocols_bits (tls13 : bool) (sp i : Z) :
  0 <= i ->
  Z.testbit (get_disabled_protocols tls13 sp) i =
  ((i =? 25) && negb (has_flag sp TLS_PROTO_SSL_V3)) ||
  ((i =? 26) && negb (has_flag sp TLS_PROTO_TLS_V1)) ||
  ((i =? 28) && negb (has_flag sp TLS_PROTO_TLS_V1_1)) ||
  ((i =? 27) && negb (has_flag sp TLS_PROTO_TLS_V1_2)) ||
  (tls13 && (i =? 29) && negb (has_flag sp TLS_PROTO_TLS_V1_3)).
Proof.
  intros Hi. unfold get_disabled_protocols.
  rewrite !testbit_cond_clear by lia. rewrite testbit_cond_set, !Z.lor_spec.
  change SSL_OP_NO_SSLv3 with (2^25). change SSL_OP_NO_TLSv1 with (2^26).
  change SSL_OP_NO_TLSv1_2 with (2^27). change SSL_OP_NO_TLSv1_1 with (2^28).
  change SSL_OP_NO_TLSv1_3 with (2^29). unfold SSL_OP_NO_SSLv2.
  rewrite !testbit_ssl_op, Z.bits_0 by lia.
  rewrite !(Z.eqb_sym _ i).
  destruct (has_flag sp TLS_PROTO_SSL_V3), (has_flag sp TLS_PROTO_TLS_V1),
    (has_flag sp TLS_PROTO_TLS_V1_1), (has_flag sp TLS_PROTO_TLS_V1_2),
    (has_flag sp TLS_PROTO_TLS_V1_3), tls13;
  destruct (Z.eqb_spec i 25); try (subst; reflexivity);
  destruct (Z.eqb_spec i 26); try (subst; reflexivity);
  destruct (Z.eqb_spec i 27); try (subst; reflexivity);
  destruct (Z.eqb_spec i 28); try (subst; reflexivity);
  destruct (Z.eqb_spec i 29); try (subst; reflexivity); reflexivity.
Qed.

(** [tls_ctx_set_protocol] turns on SSL_OP_NO_SSLv3, NO_TLSv1,
    NO_TLSv1_1, NO_TLSv1_2 (and NO_TLSv1_3 when OpenSSL has it) exactly
    for the protocols missing from the TLSProtocol bits, and leaves every
    other option bit of the context as it was. *)
Theorem tls_ctx_set_protocol_bits (tls13 : bool) (p opts i : Z) :
  Z.testbit (tls_ctx_set_protocol tls13 p opts) i =
  if i =? 25 then negb (has_flag p TLS_PROTO_SSL_V3)
  else if i =? 26 then negb (has_flag p TLS_PROTO_TLS_V1)
  else if i =? 28 then negb (has_flag p TLS_PROTO_TLS_V1_1)
  else if i =? 27 then negb (has_flag p TLS_PROTO_TLS_V1_2)
  else if tls13 && (i =? 29) then negb (has_flag p TLS_PROTO_TLS_V1_3)
  else Z.testbit opts i.
Proof.
  destruct (Z.ltb_spec i 0) as [Hi|Hi].
  { rewrite !Z.testbit_neg_r by lia.
    destruct (Z.eqb_spec i 25); [lia|]. destruct (Z.eqb_spec i 26); [lia|].
    destruct (Z.eqb_spec i 28); [lia|]. destruct (Z.eqb_spec i 27); [lia|].
    destruct (Z.eqb_spec i 29); [lia|]. rewrite andb_false_r. reflexivity. }
  unfold tls_ctx_set_protocol.
  rewrite Z.lor_spec, Z.land_spec, Z.lnot_spec, !Z.lor_spec by lia.
  rewrite !get_disabled_protocols_bits by lia.
  replace (has_flag 0 TLS_PROTO_SSL_V3) with false by reflexivity.
  replace (has_flag 0 TLS_PROTO_TLS_V1) with false by reflexivity.
  replace (has_flag 0 TLS_PROTO_TLS_V1_1) with false by reflexivity.
  replace (has_flag 0 TLS_PROTO_TLS_V1_2) with false by reflexivity.
  replace (has_flag 0 TLS_PROTO_TLS_V1_3) with false by reflexivity.
  destruct (has_flag p TLS_PROTO_SSL_V3), (has_flag p TLS_PROTO_TLS_V1),
    (has_flag p TLS_PROTO_TLS_V1_1), (has_flag p TLS_PROTO_TLS_V1_2),
    (has_flag p TLS_PROTO_TLS_V1_3), tls13, (Z.testbit opts i);
  destruct (Z.eqb_spec i 25); try (subst; reflexivity);
  destruct (Z.eqb_spec i 26); try (subst; reflexivity);
  destruct (Z.eqb_spec i 27); try (subst; reflexivity);
  destruct (Z.eqb_spec i 28); try (subst; reflexivity);
  destruct (Z.eqb_spec i 29); try (subst; reflexivity); reflexivity.
Qed.

(** [tls_get_proto_str] names the protocols set in its argument, in the
    order SSLv3, TLSv1, TLSv1.1, TLSv1.2, TLSv1.3, separated by ", "
    (the empty string when none is set), and counts them. *)
Theorem tls_get_proto_str_spec (protos : Z) :
  tls_get_proto_str protos =
  (String.concat ", " (map snd (filter (fun p => has_flag protos (fst p)) proto_names)),
   Z.of_nat (List.length (filter (fun p => has_flag protos (fst p)) proto_names))).
Proof.
  unfold tls_get_proto_str, proto_names, proto_str_step. cbn [fold_left fst snd filter map].
  destruct (has_flag protos TLS_PROTO_SSL_V3), (has_flag protos TLS_PROTO_TLS_V1),
    (has_flag protos TLS_PROTO_TLS_V1_1), (has_flag protos TLS_PROTO_TLS_V1_2),
    (has_flag protos TLS_PROTO_TLS_V1_3); reflexivity.
Qed.


Lemma tolower_idem (c : ascii) : tolower (tolower c) = tolower c.
Proof.
  destruct c as [b0 b1 b2 b3 b4 b5 b6 b7].
  destruct b0, b1, b2, b3, b4, b5, b6, b7; reflexivity.
Qed.

Lemma str_tolower_idem (s : string) : str_tolower (str_tolower s) = str_tolower s.
Proof. induction s; simpl; [reflexivity|]. rewrite tolower_idem, IHs. reflexivity. Qed.

Lemma strcasecmp_eq_tolower (a b : string) :
  strcasecmp_eq (str_tolower a) b = strcasecmp_eq a b.
Proof. unfold strcasecmp_eq. rewrite str_tolower_idem. reflexivity. Qed.

Lemma tls_proto_of_name_tolower (t : bool) (name : string) :
  tls_proto_of_name t (str_tolower name) = tls_proto_of_name t name.
Proof. unfold tls_proto_of_name. rewrite !strcasecmp_eq_tolower. reflexivity. Qed.

Lemma tls_proto_listed_tolower (t : bool) (p : Z) (args : list string) :
  tls_proto_listed t p (map str_tolower args) = tls_proto_listed t p args.
Proof.
  revert p. induction args as [|a l IH]; intros p; simpl; [reflexivity|].
  rewrite strcasecmp_eq_tolower, tls_proto_of_name_tolower.
  destruct (strcasecmp_eq a "SSLv23"); [apply IH|].
  destruct (tls_proto_of_name t a); [apply IH|reflexivity].
Qed.

Lemma tls_proto_additive_tolower (t : bool) (p : Z) (args : list string) :
  tls_proto_additive t p (map str_tolower args) = tls_proto_additive t p args.
Proof.
  revert p. induction args as [|a l IH]; intros p; simpl; [reflexivity|].
  destruct a as [|c name]; simpl; [reflexivity|].
  destruct (Ascii.eqb c "+"%char) eqn:Ep.
  - apply Ascii.eqb_eq in Ep. subst c. simpl.
    rewrite tls_proto_of_name_tolower. destruct (tls_proto_of_name t name); auto.
  - destruct (Ascii.eqb c "-"%char) eqn:Em.
    + apply Ascii.eqb_eq in Em. subst c. simpl.
      rewrite tls_proto_of_name_tolower. destruct (tls_proto_of_name t name); auto.
    + assert (Hl : Ascii.eqb (tolower c) "+"%char = false /\ Ascii.eqb (tolower c) "-"%char = false).
      { destruct c as [b0 b1 b2 b3 b4 b5 b6 b7].
        destruct b0, b1, b2, b3, b4, b5, b6, b7; simpl in *; try discriminate; split; reflexivity. }
      destruct Hl as [-> ->]. reflexivity.
Qed.

(** TLSProtocol does not depend on the case of its arguments: lowering
    every argument gives the same outcome. *)
Theorem set_tlsprotocol_case_insensitive (tls13 ctx_ok : bool) (args : list string) :
  set_tlsprotocol tls13 ctx_ok (map str_tolower args) = set_tlsprotocol tls13 ctx_ok args.
Proof.
  destruct args as [|a l]; [reflexivity|].
  unfold set_tlsprotocol. cbn [map].
  destruct ctx_ok; [|reflexivity]. cbn [negb].
  rewrite strcasecmp_eq_tolower, tls_proto_additive_tolower.
  destruct (strcasecmp_eq a "all"); [reflexivity|].
  change (str_tolower a :: map str_tolower l) with (map str_tolower (a :: l)).
  apply tls_proto_listed_tolower.
Qed.

Lemma tls_proto_listed_lor (t : bool) (p q : Z) (args : list string) :
  tls_proto_listed t (Z.lor p q) args = option_map (Z.lor p) (tls_proto_listed t q args).
Proof.
  revert q. induction args as [|a l IH]; intros q; simpl; [reflexivity|].
  destruct (strcasecmp_eq a "SSLv23").
  - rewrite <- Z.lor_assoc. apply IH.
  - destruct (tls_proto_of_name t a); [|reflexivity].
    unfold set_flag. rewrite <- Z.lor_assoc. apply IH.
Qed.

Lemma tls_proto_listed_perm (t : bool) (args args' : list string) :
  Permutation args args' -> forall p, tls_proto_listed t p args = tls_proto_listed t p args'.
Proof.
  induction 1 as [| x l l' _ IH | x y l | l l' l'' _ IH1 _ IH2]; intros p.
  - reflexivity.
  - simpl. destruct (strcasecmp_eq x "SSLv23"); [apply IH|].
    destruct (tls_proto_of_name t x); [apply IH|reflexivity].
  - cbn [tls_proto_listed].
    destruct (strcasecmp_eq x "SSLv23"), (strcasecmp_eq y "SSLv23");
      destruct (tls_proto_of_name t x), (tls_proto_of_name t y); try reflexivity;
      unfold set_flag; rewrite <- !Z.lor_assoc;
      f_equal; f_equal; apply Z.lor_comm.
  - rewrite IH1. apply IH2.
Qed.

(** In the list form of TLSProtocol (no argument is "all") the order of
    the protocol names does not matter. *)
Theorem set_tlsprotocol_list_order (tls13 ctx_ok : bool) (args args' : list string) :
  Permutation args args' ->
  (forall a, In a args -> strcasecmp_eq a "all" = false) ->
  set_tlsprotocol tls13 ctx_ok args = set_tlsprotocol tls13 ctx_ok args'.
Proof.
  intros Hp Hall.
  destruct args as [|a l].
  { apply Permutation_nil in Hp. subst. reflexivity. }
  destruct args' as [|a' l'].
  { apply Permutation_sym, Permutation_nil in Hp. discriminate. }
  unfold set_tlsprotocol.
  rewrite (Hall a (or_introl eq_refl)).
  rewrite (Hall a' (Permutation_in _ (Permutation_sym Hp) (or_introl eq_refl))).
  destruct ctx_ok; [|reflexivity]. apply tls_proto_listed_perm. exact Hp.
Qed.

Lemma tls_proto_additive_app (t : bool) (p : Z) (a b : list string) :
  tls_proto_additive t p (a ++ b) =
  match tls_proto_additive t p a with Some q => tls_proto_additive t q b | None => None end.
Proof.
  revert p. induction a as [|x l IH]; intros p; simpl; [reflexivity|].
  destruct x as [|c name]; [reflexivity|].
  destruct (Ascii.eqb c "+"%char); [|destruct (Ascii.eqb c "-"%char)]; try reflexivity;
  destruct (tls_proto_of_name t name); auto.
Qed.

Lemma tls_proto_of_name_bit (t : bool) (name : string) (b : Z) :
  tls_proto_of_name t name = Some b ->
  b = TLS_PROTO_SSL_V3 \/ b = TLS_PROTO_TLS_V1 \/ b = TLS_PROTO_TLS_V1_1 \/
  b = TLS_PROTO_TLS_V1_2 \/ b = TLS_PROTO_TLS_V1_3.
Proof.
  unfold tls_proto_of_name.
  repeat match goal with |- context [if ?c then _ else _] => destruct c end;
  intros H; first [discriminate H | injection H as <-; tauto].
Qed.

(** In the "all" form of TLSProtocol a final -name disables that
    protocol and a final +name enables it, whatever the modifiers
    before it. *)
Theorem set_tlsprotocol_last_wins (tls13 : bool) (args : list string) (name : string) (b : Z) :
  tls_proto_of_name tls13 name = Some b ->
  (forall r, set_tlsprotocol tls13 true ("all" :: args ++ [String "-" name])%string = Some r ->
     has_flag r b = false) /\
  (forall r, set_tlsprotocol tls13 true ("all" :: args ++ [String "+" name])%string = Some r ->
     has_flag r b = true).
Proof.
  intros Hn.
  assert (Hb : b <> 0) by (destruct (tls_proto_of_name_bit _ _ _ Hn) as [H|[H|[H|[H|H]]]];
                           subst; discriminate).
  unfold set_tlsprotocol. cbn [negb].
  replace (strcasecmp_eq "all" "all") with true by reflexivity.
  rewrite !tls_proto_additive_app.
  split; intros r H;
  destruct (tls_proto_additive tls13 TLS_PROTO_ALL args) as [q|]; try discriminate.
  - change (match tls_proto_of_name tls13 name with
            | None => None | Some bit => Some (clear_flag q bit) end = Some r) in H.
    rewrite Hn in H. injection H as <-. unfold has_flag.
    unfold clear_flag.
    rewrite <- Z.land_assoc, (Z.land_comm (Z.lnot b) b), Z.land_lnot_diag, Z.land_0_r.
    reflexivity.
  - change (match tls_proto_of_name tls13 name with
            | None => None | Some bit => Some (set_flag q bit) end = Some r) in H.
    rewrite Hn in H. injection H as <-. unfold has_flag.
    unfold set_flag. rewrite Z.land_lor_distr_l, Z.land_diag.
    apply negb_true_iff, Z.eqb_neq. intros H. apply Z.lor_eq_0_iff in H. tauto.
Qed.

Lemma proto_mask_lor (a b : Z) :
  0 <= a /\ Z.land a 31 = a -> 0 <= b /\ Z.land b 31 = b ->
  0 <= Z.lor a b /\ Z.land (Z.lor a b) 31 = Z.lor a b.
Proof.
  intros [Ha Ha'] [Hb Hb']. split; [apply Z.lor_nonneg; lia|].
  rewrite Z.land_lor_distr_l, Ha', Hb'. reflexivity.
Qed.

Lemma proto_mask_clear (a b : Z) :
  0 <= a /\ Z.land a 31 = a -> 0 <= clear_flag a b /\ Z.land (clear_flag a b) 31 = clear_flag a b.
Proof.
  intros [Ha Ha']. unfold clear_flag. split; [apply Z.land_nonneg; lia|].
  rewrite <- Z.land_assoc, (Z.land_comm (Z.lnot b) 31), Z.land_assoc, Ha'. reflexivity.
Qed.

Lemma tls_proto_of_name_mask (t : bool) (name : string) (b : Z) :
  tls_proto_of_name t name = Some b -> 0 <= b /\ Z.land b 31 = b /\ b <> 0.
Proof.
  intros H. destruct (tls_proto_of_name_bit _ _ _ H) as [->|[->|[->|[->| ->]]]];
  repeat split; try discriminate; reflexivity || lia.
Qed.

Lemma tls_proto_listed_mask (t : bool) (p r : Z) (args : list string) :
  0 <= p /\ Z.land p 31 = p -> tls_proto_listed t p args = Some r ->
  0 <= r /\ Z.land r 31 = r /\ (p <> 0 \/ args <> [] -> r <> 0).
Proof.
  revert p. induction args as [|a l IH]; intros p Hp H; simpl in H.
  - injection H as <-. split; [tauto|]. split; [tauto|]. intros [Hq|Hq]; [exact Hq|].
    contradiction Hq. reflexivity.
  - assert (Hnz : forall x y, x <> 0 \/ y <> 0 -> Z.lor x y <> 0).
    { intros x y Hxy Hz. apply Z.lor_eq_0_iff in Hz. lia. }
    destruct (strcasecmp_eq a "SSLv23").
    + assert (Hs : 0 <= tls_proto_sslv23 t /\ Z.land (tls_proto_sslv23 t) 31 = tls_proto_sslv23 t)
        by (destruct t; split; reflexivity || discriminate).
      destruct (IH _ (proto_mask_lor _ _ Hp Hs) H) as [H1 [H2 H3]].
      split; [exact H1|]. split; [exact H2|]. intros _.
      apply H3. left. apply Hnz. right. destruct t; discriminate.
    + destruct (tls_proto_of_name t a) as [b|] eqn:Hb; [|discriminate].
      destruct (tls_proto_of_name_mask _ _ _ Hb) as [Hb1 [Hb2 Hb3]].
      destruct (IH _ (proto_mask_lor _ _ Hp (conj Hb1 Hb2)) H) as [H1 [H2 H3]].
      split; [exact H1|]. split; [exact H2|]. intros _.
      apply H3. left. apply Hnz. right. exact Hb3.
Qed.

Lemma tls_proto_additive_mask (t : bool) (p r : Z) (args : list string) :
  0 <= p /\ Z.land p 31 = p -> tls_proto_additive t p args = Some r ->
  0 <= r /\ Z.land r 31 = r.
Proof.
  revert p. induction args as [|a l IH]; intros p Hp H; simpl in H.
  - injection H as <-. exact Hp.
  - destruct a as [|c name]; [discriminate|].
    destruct (if Ascii.eqb c "+"%char then Some (false, name)
              else if Ascii.eqb c "-"%char then Some (true, name) else None)
      as [[[|] n]|]; [| |discriminate];
    destruct (tls_proto_of_name t n) as [b|] eqn:Hb; try discriminate;
    destruct (tls_proto_of_name_mask _ _ _ Hb) as [Hb1 [Hb2 Hb3]];
    (eapply IH; [|exact H]).
    + apply proto_mask_clear; exact Hp.
    + apply proto_mask_lor; auto.
Qed.

(** TLSProtocol stores a value made of the five protocol bits only
    (between 0 and TLS_PROTO_ALL); in the list form the value is never
    0, while in a build with TLSv1.3 the "all" form can disable every
    protocol: "all -SSLv3 -TLSv1 -TLSv1.1 -TLSv1.2 -TLSv1.3" stores 0. *)
Theorem set_tlsprotocol_range (tls13 ctx_ok : bool) (args : list string) (r : Z) :
  set_tlsprotocol tls13 ctx_ok args = Some r ->
  0 <= r <= TLS_PROTO_ALL /\ Z.land r TLS_PROTO_ALL = r /\
  (strcasecmp_eq (hd ""%string args) "all" = false -> r <> 0) /\
  (tls13 = true ->
   set_tlsprotocol tls13 true
     ["all"; "-SSLv3"; "-TLSv1"; "-TLSv1.1"; "-TLSv1.2"; "-TLSv1.3"]%string = Some 0).
Proof.
  intros H.
  cut (0 <= r <= TLS_PROTO_ALL /\ Z.land r TLS_PROTO_ALL = r /\
       (strcasecmp_eq (hd ""%string args) "all" = false -> r <> 0)).
  { intros (H1 & H2 & H3).
    split; [exact H1 | split; [exact H2 | split; [exact H3 | intros ->; reflexivity]]]. }
  revert H.
  unfold set_tlsprotocol, TLS_PROTO_ALL. destruct args as [|a l]; [discriminate|].
  destruct ctx_ok; [|discriminate]. cbn [negb hd].
  intros H. assert (H31 : 0 <= 31) by lia.
  assert (Hrange : forall x, 0 <= x /\ Z.land x 31 = x -> 0 <= x <= 31).
  { intros x [Hx Hx']. split; [exact Hx|]. rewrite <- Hx'. change (Z.land x 31) with (Z.land x (Z.ones 5)).
    rewrite Z.land_ones by lia. pose proof (Z.mod_pos_bound x (2 ^ 5)). simpl in *; lia. }
  destruct (strcasecmp_eq a "all").
  - destruct (tls_proto_additive_mask tls13 31 r l (conj H31 eq_refl) H) as [H1 H2].
    split; [apply Hrange; auto|]. split; [exact H2|]. discriminate.
  - destruct (tls_proto_listed_mask tls13 0 r (a :: l) (conj (Z.le_refl 0) eq_refl) H) as [H1 [H2 H3]].
    split; [apply Hrange; auto|]. split; [exact H2|]. intros _.
    apply H3. right. discriminate.
Qed.

Lemma set_tlsprotocol_list_order_witness :
  Permutation ["TLSv1.2"; "TLSv1.3"]%string ["TLSv1.3"; "TLSv1.2"]%string /\
  (forall a, In a ["TLSv1.2"; "TLSv1.3"]%string -> strcasecmp_eq a "all" = false) /\
  set_tlsprotocol true true ["TLSv1.2"; "TLSv1.3"]%string =
    set_tlsprotocol true true ["TLSv1.3"; "TLSv1.2"]%string.
Proof.
  assert (Hp : Permutation ["TLSv1.2"; "TLSv1.3"]%string ["TLSv1.3"; "TLSv1.2"]%string)
    by apply perm_swap.
  assert (Ha : forall a, In a ["TLSv1.2"; "TLSv1.3"]%string -> strcasecmp_eq a "all" = false)
    by (intros a [<-|[<-|[]]]; reflexivity).
  split; [exact Hp|]. split; [exact Ha|].
  apply (set_tlsprotocol_list_order true true _ _ Hp Ha).
Defined.

Lemma set_tlsprotocol_last_wins_witness :
  tls_proto_of_name true "SSLv3" = Some TLS_PROTO_SSL_V3 /\
  ((forall r, set_tlsprotocol true true ("all" :: ["+SSLv3"] ++ [String "-" "SSLv3"])%string = Some r ->
      has_flag r TLS_PROTO_SSL_V3 = false) /\
   (forall r, set_tlsprotocol true true ("all" :: ["+SSLv3"] ++ [String "+" "SSLv3"])%string = Some r ->
      has_flag r TLS_PROTO_SSL_V3 = true)).
Proof.
  split; [reflexivity|]. apply set_tlsprotocol_last_wins. reflexivity.
Defined.

Lemma set_tlsprotocol_range_witness :
  set_tlsprotocol true true ["TLSv1.2"]%string = Some 8 /\
  (0 <= 8 <= TLS_PROTO_ALL /\ Z.land 8 TLS_PROTO_ALL = 8 /\
   (strcasecmp_eq (hd ""%string ["TLSv1.2"]%string) "all" = false -> 8 <> 0) /\
   (true = true ->
    set_tlsprotocol true true
      ["all"; "-SSLv3"; "-TLSv1"; "-TLSv1.1"; "-TLSv1.2"; "-TLSv1.3"]%string = Some 0)).
Proof.
  split; [reflexivity|]. apply (set_tlsprotocol_range true true ["TLSv1.2"]%string 8). reflexivity.
Defined.

(** ** Configuration directives *)

Lemma ticketkeys_loop_range (gd : string -> option Z) (atoi : string -> Z)
  (Hgd : forall v n, gd v = Some n -> n < 2 ^ 31) (Hatoi : forall v, atoi v < 2 ^ 31) :
  forall n args a c a' c', (List.length args <= n)%nat ->
  (a = -1 \/ 60 <= a < 2 ^ 31) -> (c = -1 \/ 2 <= c < 2 ^ 31) ->
  ticketkeys_loop gd atoi args a c = Some (a', c') ->
  (a' = -1 \/ 60 <= a' < 2 ^ 31) /\ (c' = -1 \/ 2 <= c' < 2 ^ 31).
Proof.
  induction n as [|n IH]; intros args a c a' c' Hl Ha Hc H.
  - destruct args; [|simpl in Hl; lia]. simpl in H. injection H as <- <-. auto.
  - destruct args as [|x rest]; simpl in H.
    + injection H as <- <-. auto.
    + simpl in Hl.
      destruct (strcasecmp_eq x "age").
      * destruct rest as [|v rest']; [discriminate|].
        destruct (gd v) as [m|] eqn:Hm; [|discriminate].
        destruct (Z.ltb_spec m 60); [discriminate|].
        apply (IH rest' m c); [simpl in Hl; lia | | exact Hc | exact H].
        right. split; [lia|]. apply (Hgd v m Hm).
      * destruct (strcasecmp_eq x "count"); [|discriminate].
        destruct rest as [|v rest']; [discriminate|].
        destruct (Z.ltb_spec (atoi v) 0); [discriminate|].
        destruct (Z.ltb_spec (atoi v) 2); [discriminate|].
        apply (IH rest' a (atoi v)); [simpl in Hl; lia | exact Ha | | exact H].
        right. split; [lia|]. apply Hatoi.
Qed.

(** TLSSessionTicketKeys, with the duration parser and [atoi] yielding C
    [int]s: an accepted directive stores a key age that is either at
    least 60 seconds or 4294967295 (the -1 of an omitted "age"), and a
    key count that is at least 2 or 4294967295 (an omitted "count");
    with one parameter given the other is always 4294967295.  The
    resulting key timer interval lies between 59 and 3600 seconds. *)
Theorem set_tlssessionticketkeys_values (gd : string -> option Z) (atoi : string -> Z)
  (Hgd : forall v n, gd v = Some n -> n < 2 ^ 31) (Hatoi : forall v, atoi v < 2 ^ 31)
  (ctx_ok : bool) (args : list string) (age count : Z) :
  set_tlssessionticketkeys gd atoi ctx_ok args = Some (age, count) ->
  (age = UINT_MAX_P1 - 1 \/ 60 <= age < 2 ^ 31) /\
  (count = UINT_MAX_P1 - 1 \/ 2 <= count < 2 ^ 31) /\
  59 <= new_ticket_key_intvl age <= 3600 /\
  (List.length args = 2%nat -> age = UINT_MAX_P1 - 1 \/ count = UINT_MAX_P1 - 1).
Proof.
  unfold set_tlssessionticketkeys. intros H.
  destruct (negb (Nat.eqb (List.length args + 1) 3 || Nat.eqb (List.length args + 1) 5));
    [discriminate|].
  destruct ctx_ok; [|discriminate]. simpl in H.
  destruct (ticketkeys_loop gd atoi args (-1) (-1)) as [[a c]|] eqn:Hloop; [|discriminate].
  injection H as <- <-.
  destruct (ticketkeys_loop_range gd atoi Hgd Hatoi (List.length args) args (-1) (-1) a c
              (le_n _) (or_introl eq_refl) (or_introl eq_refl) Hloop) as [Ha Hc].
  assert (Hm : forall x, x = -1 \/ 0 <= x < 2 ^ 31 ->
               x mod UINT_MAX_P1 = UINT_MAX_P1 - 1 \/ x mod UINT_MAX_P1 = x).
  { intros x [->|Hx]; [left; reflexivity|right].
    apply Z.mod_small. unfold UINT_MAX_P1. lia. }
  split; [|split; [|split]].
  - destruct Ha as [->|Ha]; [left; reflexivity|right].
    rewrite Z.mod_small by (unfold UINT_MAX_P1; lia). exact Ha.
  - destruct Hc as [->|Hc]; [left; reflexivity|right].
    rewrite Z.mod_small by (unfold UINT_MAX_P1; lia). exact Hc.
  - unfold new_ticket_key_intvl.
    destruct Ha as [->|Ha]; [change (59 <= 3600 <= 3600); lia|].
    rewrite (Z.mod_small a) by (unfold UINT_MAX_P1; lia).
    destruct (Z.ltb_spec a 3600); [|lia].
    rewrite Z.mod_small by (unfold UINT_MAX_P1; lia). lia.
  - intros H2.
    destruct args as [|x [|v [|? ?]]]; try discriminate.
    simpl in Hloop.
    destruct (strcasecmp_eq x "age").
    + destruct (gd v); [|discriminate]. destruct (_ <? 60); [discriminate|].
      injection Hloop as _ <-. right. reflexivity.
    + destruct (strcasecmp_eq x "count"); [|discriminate].
      destruct (atoi v <? 0); [discriminate|]. destruct (atoi v <? 2); [discriminate|].
      injection Hloop as <- _. left. reflexivity.
Qed.

Lemma set_tlssessionticketkeys_values_witness :
  let gd := fun _ : string => Some 600 in
  let atoi := fun _ : string => 5 in
  (forall v n, gd v = Some n -> n < 2 ^ 31) /\ (forall v, atoi v < 2 ^ 31) /\
  set_tlssessionticketkeys gd atoi true ["age"; "600"]%string = Some (600, 4294967295) /\
  ((600 = UINT_MAX_P1 - 1 \/ 60 <= 600 < 2 ^ 31) /\
   (4294967295 = UINT_MAX_P1 - 1 \/ 2 <= 4294967295 < 2 ^ 31) /\
   59 <= new_ticket_key_intvl 600 <= 3600 /\
   (List.length ["age"; "600"]%string = 2%nat ->
    600 = UINT_MAX_P1 - 1 \/ 4294967295 = UINT_MAX_P1 - 1)).
Proof.
  intros gd atoi.
  assert (Hgd : forall v n, gd v = Some n -> n < 2 ^ 31).
  { intros v n H. unfold gd in H. injection H as <-. lia. }
  assert (Hat : forall v, atoi v < 2 ^ 31) by (intros v; unfold atoi; lia).
  split; [exact Hgd|]. split; [exact Hat|]. split; [reflexivity|].
  apply (set_tlssessionticketkeys_values gd atoi Hgd Hat true); reflexivity.
Defined.

(** TLSRequired stores on_ctrl and on_auth as 0 or 1 and on_data as -1,
    0 or 1; requiring TLS on the control channel always requires it for
    authentication too, and a Boolean argument sets all three alike. *)
Theorem set_tlsrequired_values (get_boolean : string -> Z) (ctx_ok : bool)
  (args : list string) (on_ctrl on_data on_auth : Z) :
  set_tlsrequired get_boolean ctx_ok args = Some (on_ctrl, on_data, on_auth) ->
  (on_ctrl = 0 \/ on_ctrl = 1) /\ (on_auth = 0 \/ on_auth = 1) /\
  (on_data = -1 \/ on_data = 0 \/ on_data = 1) /\
  (on_ctrl = 1 -> on_auth = 1) /\
  (get_boolean (hd ""%string args) <> -1 -> on_ctrl = on_data /\ on_data = on_auth).
Proof.
  unfold set_tlsrequired. destruct args as [|arg rest]; [discriminate|].
  destruct ctx_ok; [|discriminate]. cbn [negb hd].
  destruct (Z.eqb_spec (get_boolean arg) (-1)) as [Hb|Hb];
  repeat match goal with |- context [if ?c then _ else _] => destruct c end;
  intros H; try discriminate H; injection H as <- <- <-; lia.
Qed.

Lemma set_tlsrequired_values_witness :
  set_tlsrequired (fun _ => -1) true ["ctrl+!data"]%string = Some (1, -1, 1) /\
  ((1 = 0 \/ 1 = 1) /\ (1 = 0 \/ 1 = 1) /\ (-1 = -1 \/ -1 = 0 \/ -1 = 1) /\
   (1 = 1 -> 1 = 1) /\ ((fun _ : string => -1) (hd ""%string ["ctrl+!data"]%string) <> -1 ->
                       1 = -1 /\ -1 = 1)).
Proof.
  split; [reflexivity|].
  apply (set_tlsrequired_values (fun _ => -1) true ["ctrl+!data"]%string). reflexivity.
Defined.

(** ** Authentication, ftpdctl, transfers and tickets *)

(** Neither [tls_authenticate] nor [tls_auth_check] accepts a user while
    the control channel is not protected by TLS, and in particular never
    after a successful CCC. *)
Theorem cert_auth_needs_tls (dotlogin_allow : string -> bool)
  (cert_to_user : string -> string -> bool) (e : authn_env) (argv : list string)
  (ce : ccc_env) (s : sess) :
  (has_flag (an_flags e) TLS_SESS_ON_CTRL = false ->
   tls_authenticate dotlogin_allow cert_to_user e argv = AUTH_DECLINED /\
   tls_auth_check dotlogin_allow cert_to_user e argv = AUTH_DECLINED) /\
  (out_ret (tls_ccc ce s) = PR_HANDLED -> an_flags e = tls_flags (out_sess (tls_ccc ce s)) ->
   tls_authenticate dotlogin_allow cert_to_user e argv = AUTH_DECLINED /\
   tls_auth_check dotlogin_allow cert_to_user e argv = AUTH_DECLINED).
Proof.
  assert (Hoff : has_flag (an_flags e) TLS_SESS_ON_CTRL = false ->
     tls_authenticate dotlogin_allow cert_to_user e argv = AUTH_DECLINED /\
     tls_auth_check dotlogin_allow cert_to_user e argv = AUTH_DECLINED).
  { intros H. unfold tls_authenticate, tls_auth_check. rewrite H.
    destruct (an_engine e); split; reflexivity. }
  split; [exact Hoff|].
  intros Hc Hf. apply Hoff. rewrite Hf.
  unfold tls_ccc in *.
  destruct (negb (ce_engine ce) || negb (mech_is_tls s)); [discriminate|].
  destruct (negb (has_flag (tls_flags s) TLS_SESS_ON_CTRL)); [discriminate|].
  destruct (ce_required_on_ctrl ce =? 1); [discriminate|].
  destruct (negb (ce_limit_ok ce)); [discriminate|].
  apply has_flags_after_ccc.
Qed.

(** [tls_auth_check] (cmd->argv: hashed password, user name, cleartext
    password) matches TLSUserName against argv[0], the hashed password:
    with AllowDotLogin off it answers exactly as [tls_authenticate] for a
    user named like the hashed password, whatever the user name.  The
    .tlslogin check, with AllowDotLogin on, uses the user name in both. *)
Theorem tls_auth_check_arguments (dotlogin_allow : string -> bool)
  (cert_to_user : string -> string -> bool) (e : authn_env) (hashed user clear : string) :
  (has_flag (an_opts e) TLS_OPT_ALLOW_DOT_LOGIN = false ->
   tls_auth_check dotlogin_allow cert_to_user e [hashed; user; clear] =
   tls_authenticate dotlogin_allow cert_to_user e [hashed]) /\
  (an_engine e = true -> has_flag (an_flags e) TLS_SESS_ON_CTRL = true ->
   has_flag (an_opts e) TLS_OPT_ALLOW_DOT_LOGIN = true -> dotlogin_allow user = true ->
   tls_auth_check dotlogin_allow cert_to_user e [hashed; user; clear] = AUTH_RFC2228_OK /\
   tls_authenticate dotlogin_allow cert_to_user e [user] = AUTH_RFC2228_OK).
Proof.
  unfold tls_auth_check, tls_authenticate. split.
  - intros Hd. rewrite Hd. reflexivity.
  - intros He Hon Hd Hu. rewrite He, Hon, Hd. simpl. rewrite Hu. split; reflexivity.
Qed.

(** The ftpdctl "tls" action runs a cache handler only for the caches
    sesscache and ocspcache and the actions info, clear and remove, only
    when the ACLs allow both the cache and the action, and hands the
    handler the arguments after the cache name. *)
Theorem tls_handle_tls_acl (check_acl : string -> bool) (args : list string)
  (cache action : string) (rest : list string) :
  tls_handle_tls check_acl args = ctrls_run cache action rest ->
  check_acl cache = true /\ check_acl action = true /\
  (cache = "sesscache"%string \/ cache = "ocspcache"%string) /\
  (action = "info"%string \/ action = "clear"%string \/ action = "remove"%string) /\
  args = cache :: rest /\ hd ""%string rest = action.
Proof.
  unfold tls_handle_tls, tls_handle_sesscache, tls_handle_ocspcache. intros H.
  destruct args as [|c [|a tl]]; [discriminate| |].
  - repeat match type of H with context [if ?b then _ else _] => destruct b eqn:? end;
      discriminate H.
  - repeat match type of H with context [if ?b then _ else _] => destruct b eqn:? end;
      try discriminate H; injection H as <- <- <-;
      repeat match goal with
             | E : String.eqb _ _ = true |- _ => apply String.eqb_eq in E; subst
             | E : negb _ = false |- _ => apply negb_false_iff in E
             end;
      repeat split; auto.
Qed.

Lemma tls_handle_tls_acl_witness :
  tls_handle_tls (fun _ => true) ["sesscache"; "info"]%string =
    ctrls_run "sesscache" "info" ["info"]%string /\
  ((fun _ : string => true) "sesscache"%string = true /\
   (fun _ : string => true) "info"%string = true /\
   ("sesscache"%string = "sesscache"%string \/ "sesscache"%string = "ocspcache"%string) /\
   ("info"%string = "info"%string \/ "info"%string = "clear"%string \/
    "info"%string = "remove"%string) /\
   ["sesscache"; "info"]%string = "sesscache"%string :: ["info"]%string /\
   hd ""%string ["info"]%string = "info"%string).
Proof.
  split; [reflexivity|].
  apply (tls_handle_tls_acl (fun _ => true) ["sesscache"; "info"]%string "sesscache" "info" ["info"]%string).
  reflexivity.
Defined.

(** [tls_pre_xfer] always declines, and asks OpenSSL for a new session
    ticket exactly when the build has TLSv1.3 and OpenSSL 3, the engine
    is on, the control channel runs a TLSv1.3 session, and that session
    has 10 seconds or less left (or has already expired). *)
Theorem tls_pre_xfer_ticket (b : build) (ossl3 : bool) (e : pre_xfer_env) :
  fst (tls_pre_xfer b ossl3 e) = PR_DECLINED /\
  (snd (tls_pre_xfer b ossl3 e) = true <->
   have_tls13 b = true /\ ossl3 = true /\ px_engine e = true /\
   has_flag (px_flags e) TLS_SESS_ON_CTRL = true /\ px_have_ctrl_ssl e = true /\
   px_tls13_session e = true /\ px_sess_time e + px_sess_timeout e - px_now e <= 10).
Proof.
  unfold tls_pre_xfer, tls_sess_remaining.
  destruct (have_tls13 b); [|split; [reflexivity|]; split; [discriminate|tauto]].
  destruct (px_engine e); [|split; [reflexivity|]; split; [discriminate|tauto]].
  destruct (has_flag (px_flags e) TLS_SESS_ON_CTRL);
    [|split; [reflexivity|]; split; [discriminate|tauto]].
  destruct (px_have_ctrl_ssl e); [|split; [reflexivity|]; split; [discriminate|tauto]].
  destruct (px_tls13_session e); [|split; [reflexivity|]; split; [discriminate|tauto]].
  cbn [negb fst snd]. split; [reflexivity|].
  destruct (Z.leb_spec (px_now e) (px_sess_time e + px_sess_timeout e));
  [destruct (Z.leb_spec (px_sess_time e + px_sess_timeout e - px_now e) 10)
  |destruct (Z.leb_spec 0 10)];
  destruct ossl3; simpl; split; intros; try tauto; try lia; try discriminate;
  repeat split; try reflexivity; try lia.
Qed.

Lemma sorted_insert_newest_first (k : ticket_key) (l : list ticket_key) :
  StronglySorted newer_or_same l -> StronglySorted newer_or_same (insert_newest_first k l).
Proof.
  induction l as [|k' l IH]; simpl; intros Hs.
  - repeat constructor.
  - apply StronglySorted_inv in Hs as [Hs Hf].
    destruct (Z.leb_spec (created k') (created k)) as [Hle|Hlt].
    + constructor; [constructor; assumption|].
      constructor; [exact Hle|].
      rewrite Forall_forall in *. intros x Hx. specialize (Hf x Hx). unfold newer_or_same in *. lia.
    + constructor; [apply IH; exact Hs|].
      rewrite Forall_forall in *. intros x Hx. apply in_insert_newest_first in Hx.
      destruct Hx as [<-|Hx]; [unfold newer_or_same; lia | apply Hf; exact Hx].
Qed.

Lemma sorted_filter {A} (R : A -> A -> Prop) (f : A -> bool) (l : list A) :
  StronglySorted R l -> StronglySorted R (filter f l).
Proof.
  induction l as [|a l IH]; simpl; intros Hs; [constructor|].
  apply StronglySorted_inv in Hs as [Hs Hf].
  destruct (f a); [|apply IH; exact Hs].
  constructor; [apply IH; exact Hs|].
  rewrite Forall_forall in *. intros x Hx. apply filter_In in Hx. apply Hf. tauto.
Qed.

Lemma sorted_removelast {A} (R : A -> A -> Prop) (l : list A) :
  StronglySorted R l -> StronglySorted R (removelast l).
Proof.
  induction l as [|a l IH]; simpl; intros Hs; [constructor|].
  apply StronglySorted_inv in Hs as [Hs Hf].
  destruct l as [|b l]; [constructor|].
  constructor; [apply IH; exact Hs|].
  rewrite Forall_forall in *. intros x Hx. apply Hf. apply in_removelast. exact Hx.
Qed.

Lemma ring_sorted_add (max_age max_count now : Z) (k : ticket_key) (r : ring) :
  ring_sorted r -> ring_sorted (snd (add_ticket_key max_age max_count now k r)).
Proof.
  intros Hs.
  assert (H1 : ring_sorted (snd (remove_expired_ticket_keys max_age now r))).
  { unfold remove_expired_ticket_keys. destruct (curr_count r <? 2); [exact Hs|].
    destruct (tls_ticket_keys r) as [l|] eqn:E; [|exact Hs].
    intros l' H. simpl in H. injection H as <-. apply sorted_filter, Hs, E. }
  unfold add_ticket_key.
  set (r1 := snd (remove_expired_ticket_keys max_age now r)) in *.
  assert (H2 : ring_sorted (if curr_count r1 =? max_count then snd (remove_oldest_ticket_key r1) else r1)).
  { destruct (curr_count r1 =? max_count); [|exact H1].
    unfold remove_oldest_ticket_key. destruct (curr_count r1 <? 2); [exact H1|].
    destruct (tls_ticket_keys r1) as [l|] eqn:E; [|exact H1].
    intros l' H. simpl in H. injection H as <-. apply sorted_removelast, H1, E. }
  destruct (tls_ticket_keys _) as [l|] eqn:E; [|exact H2].
  intros l' H. simpl in H. injection H as <-. apply sorted_insert_newest_first, H2, E.
Qed.

Lemma ring_reachable_sorted (max_age max_count t : Z) (r : ring) :
  ring_reachable max_age max_count t r -> ring_sorted r.
Proof.
  intros Hr. induction Hr as [t name | t r Hr IH | t r ck Hr IH].
  - unfold tls_init_ticket_keys. simpl. apply ring_sorted_add.
    intros l H. injection H as <-. constructor.
  - exact IH.
  - unfold new_ticket_key_timer_cb. destruct ck; [apply ring_sorted_add|]; exact IH.
Qed.

(** On every ring reachable after a successful initialisation, the
    ticket key callback in encrypt mode never dereferences a NULL key:
    the ring's list starts with its newest key (none of the others was
    created later), and with its setup steps succeeding encrypt mode
    returns 1 and names that key, and in decrypt mode that name is found
    again, giving 2 for a TLSv1.3 session and 1 otherwise. *)
Theorem ticket_key_encrypt_decrypt (max_age max_count t : Z) (r : ring) (tls13 : bool) :
  2 <= max_count -> ring_reachable max_age max_count t r ->
  (forall rand_ok enc_ok hmac_ok,
     tls_ticket_key_cb_encrypt r rand_ok enc_ok hmac_ok <> enc_null_deref) /\
  exists k l,
    tls_ticket_keys r = Some (k :: l) /\
    (forall x, In x l -> created x <= created k) /\
    tls_ticket_key_cb_encrypt r true true true = enc_ret 1 (Some (key_name k)) /\
    tls_ticket_key_cb_decrypt r (key_name k) tls13 true true = (if tls13 then 2 else 1).
Proof.
  intros HM Hr.
  destruct (ring_reachable_wf max_age max_count t r HM Hr) as [l [Hl [Hc Hb]]].
  pose proof (ring_reachable_sorted max_age max_count t r Hr l Hl) as Hs.
  destruct l as [|k l']; [simpl in Hc; lia|].
  apply StronglySorted_inv in Hs as [_ Hf]. rewrite Forall_forall in Hf.
  unfold tls_ticket_key_cb_encrypt, tls_ticket_key_cb_decrypt, get_ticket_key.
  rewrite Hl. split.
  - intros ro eo ho. destruct ro, eo, ho; discriminate.
  - exists k, l'. split; [reflexivity|]. split; [exact Hf|]. split; [reflexivity|].
    simpl. rewrite Z.eqb_refl. reflexivity.
Qed.

Lemma ticket_key_encrypt_decrypt_witness :
  let r := new_ticket_key_timer_cb 600 2 (0 + 1) (Some 8)
             (fst (tls_init_ticket_keys 600 2 0 (Some 7))) in
  2 <= 2 /\ ring_reachable 600 2 (0 + 1) r /\
  tls_ticket_keys r = Some [mk_key 8 1; mk_key 7 0] /\
  ((forall rand_ok enc_ok hmac_ok,
      tls_ticket_key_cb_encrypt r rand_ok enc_ok hmac_ok <> enc_null_deref) /\
   exists k l,
     tls_ticket_keys r = Some (k :: l) /\
     (forall x, In x l -> created x <= created k) /\
     tls_ticket_key_cb_encrypt r true true true = enc_ret 1 (Some (key_name k)) /\
     tls_ticket_key_cb_decrypt r (key_name k) true true true = (if true then 2 else 1)).
Proof.
  intros r.
  assert (Hr : ring_reachable 600 2 (0 + 1) r)
    by (apply rr_timer, rr_tick, rr_init).
  split; [lia|]. split; [exact Hr|]. split; [reflexivity|].
  apply (ticket_key_encrypt_decrypt 600 2 (0 + 1) r true); [lia | exact Hr].
Defined.

(** ** OCSP staleness *)

(** [ocsp_stale_response] outside the nextUpdate case: a response that
    is not successful, or has no basic response, is stale once older than
    300 seconds; a successful one without nextUpdate once older than 3600
    seconds; one whose issuer or certificate status cannot be found is
    never stale.  A non-zero [*expired] is always the current time and
    comes with a stale verdict. *)
Theorem ocsp_stale_other_cases (ocsp_status : Z) (basic : option ocsp_basic) (now age : Z) :
  (ocsp_status <> OCSP_RESPONSE_STATUS_SUCCESSFUL ->
   ocsp_stale_response ocsp_status basic now age = (if 300 <? age then 0 else -1, 0)) /\
  ocsp_stale_response OCSP_RESPONSE_STATUS_SUCCESSFUL None now age =
    (if 300 <? age then 0 else -1, 0) /\
  (forall this_update,
   ocsp_stale_response OCSP_RESPONSE_STATUS_SUCCESSFUL
     (Some (basic_status (Some (this_update, None)))) now age =
   (if 3600 <? age then 0 else -1, 0)) /\
  ocsp_stale_response OCSP_RESPONSE_STATUS_SUCCESSFUL (Some basic_no_issuer) now age = (-1, 0) /\
  ocsp_stale_response OCSP_RESPONSE_STATUS_SUCCESSFUL (Some (basic_status None)) now age = (-1, 0) /\
  (snd (ocsp_stale_response ocsp_status basic now age) <> 0 ->
   snd (ocsp_stale_response ocsp_status basic now age) = now /\
   fst (ocsp_stale_response ocsp_status basic now age) = 0).
Proof.
  unfold ocsp_stale_response. split; [|split; [|split; [|split; [|split]]]].
  - intros Hs. destruct (Z.eqb_spec ocsp_status OCSP_RESPONSE_STATUS_SUCCESSFUL); [lia|].
    destruct (300 <? age); reflexivity.
  - simpl. destruct (300 <? age); reflexivity.
  - intros tu. simpl. destruct (3600 <? age); reflexivity.
  - reflexivity.
  - reflexivity.
  - destruct (ocsp_status =? OCSP_RESPONSE_STATUS_SUCCESSFUL);
      [|destruct (300 <? age); simpl; intros H; contradiction H; reflexivity].
    destruct basic as [[|[[tu [nu|]]|]]|]; simpl;
      try (destruct (_ <? age); simpl; intros H; contradiction H; reflexivity);
      try (intros H; contradiction H; reflexivity).
    destruct (X509_cmp_time nu now <? 0); [simpl; split; reflexivity|].
    destruct (ASN1_TIME_diff tu nu) as [nd ns].
    destruct (X509_cmp_time tu _ <? 0); simpl; intros H; contradiction H; reflexivity.
Qed.
